(** * Mountain trip risk checker: the risk logic of [app.py]

    The development embeds the rule-based assessment [analyze_risk] and the
    mountainous classification of the "Check risk now" handler.  Python values
    decoded from JSON are modelled by [pyval]; Python floats are the kernel's
    binary64 floats, Python ints are [Z]; a raised exception is the [Raise]
    branch of [res]. *)

From Stdlib Require Import ZArith QArith String Ascii List Bool Lia.
From Stdlib Require Import Floats.PrimFloat Floats.SpecFloat Floats.FloatOps.
From stdpp Require Import base option strings pretty gmap.

Set Warnings "-inexact-float,-register-all".

Local Open Scope string_scope.
Local Open Scope Z_scope.

(** ** Python values *)

(** A Python number: an arbitrary-precision [int] or a binary64 [float]. *)
Inductive pynum :=
| NInt (z : Z)
| NFloat (f : float).

(** What [json] decoding produces: [None], [bool], numbers, [str], [list],
    [dict] with string keys. *)
Inductive pyval :=
| PNone
| PBool (b : bool)
| PNum (n : pynum)
| PStr (s : string)
| PList (l : list pyval)
| PDict (d : gmap string pyval).

(** The exceptions the evaluated expressions can raise. *)
Inductive exn := TypeError | AttributeError | KeyError | IndexError.

Inductive res (A : Type) :=
| Ok (a : A)
| Raise (e : exn).
Arguments Ok {A} a.
Arguments Raise {A} e.

#[global] Instance res_ret : MRet res := fun A a => Ok a.
#[global] Instance res_bind : MBind res := fun A B k m =>
  match m with
  | Ok a => k a
  | Raise e => Raise e
  end.

(** ** Numbers: exact comparison and arithmetic *)

Definition signed (s : bool) (m : positive) : Z :=
  if s then Z.neg m else Z.pos m.

(** [z <= f], decided on the exact values (Python compares an int with a
    float without rounding the int); false when [f] is a NaN. *)
Definition Z_le_float (z : Z) (f : float) : bool :=
  match Prim2SF f with
  | S754_nan => false
  | S754_infinity s => negb s
  | S754_zero _ => z <=? 0
  | S754_finite s m e =>
      if 0 <=? e then z <=? signed s m * 2 ^ e
      else z * 2 ^ (- e) <=? signed s m
  end.

(** [f <= z], likewise. *)
Definition float_le_Z (f : float) (z : Z) : bool :=
  match Prim2SF f with
  | S754_nan => false
  | S754_infinity s => s
  | S754_zero _ => 0 <=? z
  | S754_finite s m e =>
      if 0 <=? e then signed s m * 2 ^ e <=? z
      else signed s m <=? z * 2 ^ (- e)
  end.

(** Python's [a <= b] on numbers. *)
Definition num_le (a b : pynum) : bool :=
  match a, b with
  | NInt x, NInt y => x <=? y
  | NFloat x, NFloat y => PrimFloat.leb x y
  | NInt x, NFloat y => Z_le_float x y
  | NFloat x, NInt y => float_le_Z x y
  end.

(** Python's [a >= b] on numbers. *)
Definition num_ge (a b : pynum) : bool := num_le b a.

(** Python's [float(z)]: round to nearest, ties to even.  (Python raises
    OverflowError where this gives an infinity, from 2^1024 on; the int
    operands of the program are the literals 0, 2 and 3.) *)
Definition float_of_Z (z : Z) : float :=
  SF2Prim (binary_normalize prec emax z 0 false).

Definition py_mul (a b : pynum) : pynum :=
  match a, b with
  | NInt x, NInt y => NInt (x * y)
  | NInt x, NFloat y => NFloat (PrimFloat.mul (float_of_Z x) y)
  | NFloat x, NInt y => NFloat (PrimFloat.mul x (float_of_Z y))
  | NFloat x, NFloat y => NFloat (PrimFloat.mul x y)
  end.

Definition py_add (a b : pynum) : pynum :=
  match a, b with
  | NInt x, NInt y => NInt (x + y)
  | NInt x, NFloat y => NFloat (PrimFloat.add (float_of_Z x) y)
  | NFloat x, NInt y => NFloat (PrimFloat.add x (float_of_Z y))
  | NFloat x, NFloat y => NFloat (PrimFloat.add x y)
  end.

(** The exact rational value of a finite number; [None] for NaN and the
    infinities. *)
Definition num_value (a : pynum) : option Q :=
  match a with
  | NInt z => Some (inject_Z z)
  | NFloat f =>
      match Prim2SF f with
      | S754_zero _ => Some (inject_Z 0)
      | S754_finite s m e =>
          Some (if 0 <=? e then inject_Z (signed s m * 2 ^ e)
                else Qmake (signed s m) (Z.to_pos (2 ^ (- e))))
      | _ => None
      end
  end.

(** ** Strings *)

(** Python's [needle in hay] on [str]: [needle] occurs as a substring. *)
Fixpoint contains (needle hay : string) : bool :=
  String.prefix needle hay ||
  match hay with
  | EmptyString => false
  | String _ rest => contains needle rest
  end.

(** ** The built-in operations the program applies to decoded values *)

Definition is_none (v : pyval) : bool :=
  match v with PNone => true | _ => false end.

(** [k in v] for a string [k]. *)
Definition py_in (k : string) (v : pyval) : res bool :=
  match v with
  | PDict d => Ok (match d !! k with Some _ => true | None => false end)
  | PList l =>
      Ok (existsb (fun x => match x with PStr s => String.eqb s k | _ => false end) l)
  | PStr s => Ok (contains k s)
  | _ => Raise TypeError
  end.

(** [v[k]] for a string [k]. *)
Definition py_getitem (v : pyval) (k : string) : res pyval :=
  match v with
  | PDict d => match d !! k with Some x => Ok x | None => Raise KeyError end
  | _ => Raise TypeError
  end.

(** [len(v)]. *)
Definition py_len (v : pyval) : res Z :=
  match v with
  | PStr s => Ok (Z.of_nat (String.length s))
  | PList l => Ok (Z.of_nat (List.length l))
  | PDict d => Ok (Z.of_nat (size d))
  | _ => Raise TypeError
  end.

(** [v[0]]; the keys of a decoded dict are strings, so [0] is never one. *)
Definition py_getitem0 (v : pyval) : res pyval :=
  match v with
  | PList (x :: _) => Ok x
  | PList [] => Raise IndexError
  | PStr (String c _) => Ok (PStr (String c EmptyString))
  | PStr EmptyString => Raise IndexError
  | PDict _ => Raise KeyError
  | _ => Raise TypeError
  end.

(** [v.get(k, dflt)]: only a dict has the method. *)
Definition py_get (v : pyval) (k : string) (dflt : pyval) : res pyval :=
  match v with
  | PDict d => Ok (default dflt (d !! k))
  | _ => Raise AttributeError
  end.

(** A value as an operand of an ordering comparison with a number: numbers,
    and bools as 0 and 1. *)
Definition as_num (v : pyval) : option pynum :=
  match v with
  | PNum n => Some n
  | PBool b => Some (NInt (Z.b2z b))
  | _ => None
  end.

(** [v >= c] and [v <= c] for a numeric literal or constant [c]. *)
Definition py_ge (v : pyval) (c : pynum) : res bool :=
  match as_num v with
  | Some n => Ok (num_ge n c)
  | None => Raise TypeError
  end.

Definition py_le (v : pyval) (c : pynum) : res bool :=
  match as_num v with
  | Some n => Ok (num_le n c)
  | None => Raise TypeError
  end.

(** ** Config / thresholds *)

Definition ELEVATION_MOUNTAIN_THRESHOLD : pynum := NInt 1000.
Definition WIND_STRONG_THRESHOLD : pynum := NFloat 10.0.
Definition PRECIP_THRESHOLD_MM : pynum := NFloat 0.1.

Definition option_of_res {A : Type} (r : res A) : option A :=
  match r with
  | Ok a => Some a
  | Raise _ => None
  end.

(** ** Results *)

(** The six locals parsed from the payload, which are also the ["raw"] entry
    of the returned dict. *)
Record snapshot := {
  temp_c : pyval;
  wind_speed : pyval;
  rain_1h : pyval;
  snow_1h : pyval;
  weather_main : string;
  weather_desc : string;
}.

(** The returned dict. *)
Record assessment := {
  level : string;
  reasons : list string;
  advice : list string;
  raw : snapshot;
}.

Record flags := {
  has_rain : bool;
  has_snow : bool;
  is_windy : bool;
  is_cold : bool;
}.

(** ** Literal texts *)

Definition CLEAR_REASON : string := "Clear conditions currently.".

Definition NOT_MOUNTAINOUS_NOTE : string :=
  "Location is not identified as mountainous (lower elevation or user selected). Risk is assessed for non-mountain conditions.".

Definition LOWLAND_SUFFIX : string :=
  " (mountain hazard less likely due to low elevation)".

Definition advice_high : list string :=
  [ "Avoid travel if possible — high risk conditions for mountain areas.";
    "Postpone the trip or choose a lower-altitude route.";
    "If travel is necessary, carry warm waterproof gear, inform someone, and have emergency kit." ].

Definition advice_medium : list string :=
  [ "Caution advised. Conditions may be risky, especially on exposed or steep terrain.";
    "Check local forecasts and consider delaying if the weather worsens.";
    "Bring waterproof layers, navigation, and an emergency plan." ].

Definition advice_low : list string :=
  [ "Conditions appear OK for trips, but weather can change rapidly in mountains.";
    "Bring layers, sun protection, and check updates before leaving." ].

(** ** Risk logic *)

Section RiskLogic.

(** Python's [str.lower] (Unicode aware) and the default formatting of a value
    inside an f-string are built-ins; the risk logic is parametric in them. *)
Variable lower : string -> string.
Variable fmt : pyval -> string.

(** [v.lower()]: only a str has the method. *)
Definition py_lower (v : pyval) : res string :=
  match v with
  | PStr s => Ok (lower s)
  | _ => Raise AttributeError
  end.

(** Lines 105-109: the condition texts of the first weather entry. *)
Definition parse_condition (weather_json : pyval) : res (string * string) :=
  present ← py_in "weather" weather_json;
  nonempty ← (if present : bool then
                w ← py_getitem weather_json "weather";
                n ← py_len w;
                mret (0 <? n)
              else mret false);
  if nonempty : bool then
    w ← py_getitem weather_json "weather";
    w0 ← py_getitem0 w;
    m ← py_get w0 "main" (PStr "");
    weather_main ← py_lower m;
    w ← py_getitem weather_json "weather";
    w0 ← py_getitem0 w;
    d ← py_get w0 "description" (PStr "");
    weather_desc ← py_lower d;
    mret (weather_main, weather_desc)
  else mret ("", "").

(** Lines 113-118: the last-hour volume under key [k] ("rain" or "snow"). *)
Definition parse_precip (weather_json : pyval) (k : string) : res pyval :=
  present ← py_in k weather_json;
  if present : bool then
    sub ← py_getitem weather_json k;
    py_get sub "1h" (PNum (NFloat 0.0))
  else mret (PNum (NFloat 0.0)).

(** Lines 105-118: "parse common fields with safe fallbacks". *)
Definition parse_fields (weather_json : pyval) : res snapshot :=
  '(weather_main, weather_desc) ← parse_condition weather_json;
  main ← py_get weather_json "main" (PDict ∅);
  temp_c ← py_get main "temp" PNone;
  wind ← py_get weather_json "wind" (PDict ∅);
  wind_speed ← py_get wind "speed" (PNum (NFloat 0.0));
  rain_1h ← parse_precip weather_json "rain";
  snow_1h ← parse_precip weather_json "snow";
  mret {| temp_c := temp_c; wind_speed := wind_speed;
          rain_1h := rain_1h; snow_1h := snow_1h;
          weather_main := weather_main; weather_desc := weather_desc |}.

(** Lines 121-124: the basic flags; [or] and [and] evaluate their right
    operand only when the left one does not decide. *)
Definition hazard_flags (p : snapshot) : res flags :=
  has_rain ← (if contains "rain" (weather_main p) then mret true
              else
                wet ← py_ge (rain_1h p) PRECIP_THRESHOLD_MM;
                if wet : bool then mret true
                else mret (contains "shower" (weather_desc p)));
  has_snow ← (if contains "snow" (weather_main p) then mret true
              else py_ge (snow_1h p) PRECIP_THRESHOLD_MM);
  is_windy ← py_ge (wind_speed p) WIND_STRONG_THRESHOLD;
  is_cold ← (if negb (is_none (temp_c p)) then py_le (temp_c p) (NInt 0)
             else mret false);
  mret {| has_rain := has_rain; has_snow := has_snow;
          is_windy := is_windy; is_cold := is_cold |}.

(** Line 146: the storm test, which the source writes in place. *)
Definition is_stormy (p : snapshot) : bool :=
  contains "thunder" (weather_desc p) || contains "storm" (weather_desc p).

(** Lines 129-132. *)
Definition risk_weight (is_mountainous : bool) : pynum :=
  if is_mountainous then NFloat 2.0 else NFloat 1.0.

(** One [if cond: reasons.append(reason); risk_score += points * risk_weight]. *)
Definition hazard (cond : bool) (reason : string) (points weight : pynum)
    (st : list string * pynum) : list string * pynum :=
  if cond then ((st.1 ++ [reason])%list, py_add st.2 (py_mul points weight)) else st.

(** Lines 127-150: the reasons and the risk score. *)
Definition evaluate_risk (p : snapshot) (f : flags) (is_mountainous : bool)
    : list string * pynum :=
  let w := risk_weight is_mountainous in
  let st := ([], NInt 0) in
  let st := hazard (has_rain f)
    ("Precipitation detected (rain ~ " ++ fmt (rain_1h p) ++ " mm in last hour).")
    (NInt 2) w st in
  let st := hazard (has_snow f)
    ("Snow detected (snow ~ " ++ fmt (snow_1h p) ++ " mm in last hour).")
    (NInt 3) w st in
  let st := hazard (is_windy f)
    ("Strong wind (~" ++ fmt (wind_speed p) ++ " m/s).")
    (NInt 2) w st in
  let st := hazard (is_cold f)
    ("Low temperature (" ++ fmt (temp_c p) ++ " °C).")
    (NFloat 1.5) w st in
  let st := hazard (is_stormy p)
    ("Thunderstorm / storm conditions reported: " ++ weather_desc p ++ ".")
    (NInt 3) w st in
  if String.eqb (weather_main p) "clear"
     && negb (has_rain f || has_snow f || is_windy f || is_cold f)
  then ((st.1 ++ [CLEAR_REASON])%list, st.2)
  else st.

(** Lines 153-172: the category and its advice. *)
Definition categorize (risk_score : pynum) : string * list string :=
  if num_ge risk_score (NInt 6) then ("High", advice_high)
  else if num_ge risk_score (NFloat 2.5) then ("Medium", advice_medium)
  else ("Low", advice_low).

(** Lines 175-179: the note and the softened level off the mountains. *)
Definition lowland_adjust (is_mountainous : bool) (level : string)
    (reasons : list string) : string * list string :=
  if negb is_mountainous then
    (if String.eqb level "High" then level ++ LOWLAND_SUFFIX else level,
     NOT_MOUNTAINOUS_NOTE :: reasons)
  else (level, reasons).

(** Lines 120-193: everything after the parsing of the fields. *)
Definition assess (p : snapshot) (is_mountainous : bool) : res assessment :=
  f ← hazard_flags p;
  let '(reasons, risk_score) := evaluate_risk p f is_mountainous in
  let '(level, advice) := categorize risk_score in
  let '(level, reasons) := lowland_adjust is_mountainous level reasons in
  mret {| level := level; reasons := reasons; advice := advice; raw := p |}.

Definition analyze_risk (weather_json : pyval) (is_mountainous : bool)
    : res assessment :=
  p ← parse_fields weather_json;
  assess p is_mountainous.

End RiskLogic.

(** ** The "Check risk now" handler: where the weather and the mountainous
    flag come from *)

Inductive loc_mode := CityName | LatLon.

(** Lines 246-252: the demo payload. *)
Definition demo_fields : gmap string pyval :=
  <["weather" :=
      PList [PDict (<["main" := PStr "Clear"]>
                    (<["description" := PStr "clear sky"]> ∅))]]>
  (<["main" := PDict (<["temp" := PNum (NFloat 4.5)]> ∅)]>
  (<["wind" := PDict (<["speed" := PNum (NFloat 3.2)]> ∅)]>
  (<["rain" := PDict ∅]>
  (<["snow" := PDict ∅]> ∅)))).

Definition demo_weather : pyval := PDict demo_fields.

(** Lines 283-296, the latitude and longitude mode.  [fetched] is what
    [fetch_elevation] returns, a decoded value or [None]; it is asked for only
    under [auto_elev]. *)
Definition classify_coords (auto_elev force_mountain : bool) (fetched : pyval)
    : res (pyval * bool) :=
  '(elevation, is_mountainous) ←
    (if auto_elev then
       if negb (is_none fetched) then
         high ← py_ge fetched ELEVATION_MOUNTAIN_THRESHOLD;
         mret (fetched, high)
       else mret (PNone, false)
     else mret (PNone, false));
  mret (elevation, if force_mountain then true else is_mountainous).

(** Lines 244-296: the elevation and the mountainous flag in each mode. *)
Definition classify_location (use_demo : bool) (mode : loc_mode)
    (auto_elev force_mountain : bool) (fetched : pyval) : res (pyval * bool) :=
  if use_demo then mret (PNum (NInt 3200), true)
  else
    match mode with
    | CityName => mret (PNone, force_mountain || false)
    | LatLon => classify_coords auto_elev force_mountain fetched
    end.

(** ** The declared input domain *)

(** The observation of the data model: the typed view of the parsed locals. *)
Record WeatherObservation := {
  conditionMain : string;
  conditionDescription : string;
  temperatureC : option pynum;
  windSpeedMs : pynum;
  rain1h : pynum;
  snow1h : pynum;
}.

Definition opt_num (t : option pynum) : pyval :=
  match t with
  | Some n => PNum n
  | None => PNone
  end.

(** The locals that hold an observation. *)
Definition observe (o : WeatherObservation) : snapshot :=
  {| temp_c := opt_num (temperatureC o);
     wind_speed := PNum (windSpeedMs o);
     rain_1h := PNum (rain1h o);
     snow_1h := PNum (snow1h o);
     weather_main := conditionMain o;
     weather_desc := conditionDescription o |}.

Definition is_str (v : pyval) : bool :=
  match v with PStr _ => true | _ => false end.

Definition is_number (v : pyval) : bool :=
  match v with PNum _ => true | _ => false end.

(** Key [k] of [d] is absent or holds a value accepted by [ok]. *)
Definition optional (d : gmap string pyval) (k : string) (ok : pyval -> bool)
    : bool :=
  match d !! k with
  | Some v => ok v
  | None => true
  end.

(** A dict whose key [k] is absent or holds a value accepted by [ok]. *)
Definition record_with (k : string) (ok : pyval -> bool) (v : pyval) : bool :=
  match v with
  | PDict d => optional d k ok
  | _ => false
  end.

(** A list that is empty or starts with a condition entry whose texts, when
    given, are strings. *)
Definition condition_list (v : pyval) : bool :=
  match v with
  | PList [] => true
  | PList (PDict c :: _) => optional c "main" is_str && optional c "description" is_str
  | _ => false
  end.

(** The payloads of the provider's shape: every field may be absent, and a
    field that is there has its declared type. *)
Definition well_formed (weather_json : pyval) : bool :=
  match weather_json with
  | PDict d =>
      optional d "weather" condition_list
      && optional d "main" (record_with "temp" (fun t => is_number t || is_none t))
      && optional d "wind" (record_with "speed" is_number)
      && optional d "rain" (record_with "1h" is_number)
      && optional d "snow" (record_with "1h" is_number)
  | _ => false
  end.

(** ** Stand-ins for the two built-ins, to run the logic on examples *)

Definition lower_ascii_char (c : ascii) : ascii :=
  let n := N_of_ascii c in
  if (65 <=? n)%N && (n <=? 90)%N then ascii_of_N (n + 32) else c.

(** Lowercasing of the letters A-Z; Python's [str.lower] does this on ASCII
    text. *)
Fixpoint ascii_lower (s : string) : string :=
  match s with
  | EmptyString => EmptyString
  | String c rest => String (lower_ascii_char c) (ascii_lower rest)
  end.

(** Formatting restricted to what needs no digits of a float: [None], bools,
    ints and strings as Python prints them, a fixed mark for the rest. *)
Definition fmt_plain (v : pyval) : string :=
  match v with
  | PNone => "None"
  | PBool b => if b then "True" else "False"
  | PNum (NInt z) => pretty z
  | PStr s => s
  | _ => "<value>"
  end.

(** The risk logic run with the stand-ins. *)
Definition run : pyval -> bool -> res assessment :=
  analyze_risk ascii_lower fmt_plain.

(** ** Example inputs *)

(** A thunderstorm report with nothing else in the payload. *)
Definition storm_weather : pyval :=
  PDict (<["weather" :=
            PList [PDict (<["main" := PStr "Thunderstorm"]>
                          (<["description" := PStr "thunderstorm"]> ∅))]]> ∅).

(** A mild overcast day: 12.0 degrees, wind 2.5 m/s, no precipitation. *)
Definition overcast_weather : pyval :=
  PDict (<["weather" :=
            PList [PDict (<["main" := PStr "Clouds"]>
                          (<["description" := PStr "overcast clouds"]> ∅))]]>
        (<["main" := PDict (<["temp" := PNum (NFloat 12.0)]> ∅)]>
        (<["wind" := PDict (<["speed" := PNum (NFloat 2.5)]> ∅)]> ∅))).

(** A payload whose last-hour rain volume is [null]. *)
Definition null_rain_weather : pyval :=
  PDict (<["rain" := PDict (<["1h" := PNone]> ∅)]> ∅).

(** A rainy observation: the main text already says "rain". *)
Definition rainy_observation : WeatherObservation :=
  {| conditionMain := "rain";
     conditionDescription := "light rain";
     temperatureC := Some (NFloat 8.0);
     windSpeedMs := NFloat 2.0;
     rain1h := NFloat 0.05;
     snow1h := NFloat 0.0 |}.

(** The observation of the demo payload. *)
Definition demo_observation : WeatherObservation :=
  {| conditionMain := "clear";
     conditionDescription := "clear sky";
     temperatureC := Some (NFloat 4.5);
     windSpeedMs := NFloat 3.2;
     rain1h := NFloat 0.0;
     snow1h := NFloat 0.0 |}.

(** ** Expressions used to state the properties *)

(** The risk score that [evaluate_risk] accumulates. *)
Definition risk_score (fmt : pyval -> string) (p : snapshot) (f : flags)
    (is_mountainous : bool) : pynum :=
  (evaluate_risk fmt p f is_mountainous).2.

(** The rational 1 when the flag fired, 0 otherwise. *)
Definition fired (b : bool) : Q := if b then 1%Q else 0%Q.

(** The weight as a rational. *)
Definition weight_of (is_mountainous : bool) : Q :=
  if is_mountainous then 2%Q else 1%Q.

(** The score as a function of the five flags alone. *)
Definition add_points (cond : bool) (points weight score : pynum) : pynum :=
  if cond then py_add score (py_mul points weight) else score.

Definition score_of_flags (rain snow windy cold stormy is_mountainous : bool)
    : pynum :=
  let w := risk_weight is_mountainous in
  add_points stormy (NInt 3) w
    (add_points cold (NFloat 1.5) w
      (add_points windy (NInt 2) w
        (add_points snow (NInt 3) w
          (add_points rain (NInt 2) w (NInt 0))))).

(** A singleton when the condition holds, nothing otherwise. *)
Definition when (cond : bool) (reason : string) : list string :=
  if cond then [reason] else [].

(** An observation with another last-hour rain volume. *)
Definition with_rain1h (o : WeatherObservation) (x : pynum) : WeatherObservation :=
  {| conditionMain := conditionMain o;
     conditionDescription := conditionDescription o;
     temperatureC := temperatureC o;
     windSpeedMs := windSpeedMs o;
     rain1h := x;
     snow1h := snow1h o |}.

(** The flags of an observation, written without the exception plumbing. *)
Definition observed_flags (o : WeatherObservation) : flags :=
  {| has_rain := contains "rain" (conditionMain o)
                 || num_ge (rain1h o) PRECIP_THRESHOLD_MM
                 || contains "shower" (conditionDescription o);
     has_snow := contains "snow" (conditionMain o)
                 || num_ge (snow1h o) PRECIP_THRESHOLD_MM;
     is_windy := num_ge (windSpeedMs o) WIND_STRONG_THRESHOLD;
     is_cold := match temperatureC o with
                | Some t => num_le t (NInt 0)
                | None => false
                end |}.

(** ** The rest of the handler: elevation lookup, pipeline and display *)

(** What lines 82-86 of [fetch_elevation] give: the request, the status check
    or the decoding raised, or the response body was decoded. *)
Inductive http_outcome :=
| HttpFailed
| HttpJson (data : pyval).

(** Lines 87-88: the elevation of the first result, [None] without one. *)
Definition first_elevation (data : pyval) : res pyval :=
  present ← py_in "results" data;
  nonempty ← (if present : bool then
                r ← py_getitem data "results";
                n ← py_len r;
                mret (0 <? n)
              else mret false);
  if nonempty : bool then
    r ← py_getitem data "results";
    r0 ← py_getitem0 r;
    py_get r0 "elevation" PNone
  else mret PNone.

(** Lines 76-91: every exception inside the [try] block turns into [None]. *)
Definition fetch_elevation (outcome : http_outcome) : pyval :=
  match outcome with
  | HttpFailed => PNone
  | HttpJson data =>
      match first_elevation data with
      | Ok v => v
      | Raise _ => PNone
      end
  end.

(** The calls that write to the page. *)
Inductive ui :=
| Header (s : string)
| Subheader (s : string)
| Write (s : string)
| Markdown (s : string).

(** Lines 185-192: the ["raw"] dict, key by key. *)
Definition raw_dict (s : snapshot) : gmap string pyval :=
  <["temp_c" := temp_c s]>
  (<["wind_speed" := wind_speed s]>
  (<["rain_1h" := rain_1h s]>
  (<["snow_1h" := snow_1h s]>
  (<["weather_main" := PStr (weather_main s)]>
  (<["weather_desc" := PStr (weather_desc s)]> ∅))))).

(** [d.get(k, dflt)] on a dict. *)
Definition dict_get (d : gmap string pyval) (k : string) (dflt : pyval) : pyval :=
  default dflt (d !! k).

Section Handler.

Variable lower : string -> string.
Variable fmt : pyval -> string.

(** Lines 244-299, from validated inputs and a fetched weather payload to the
    analysis: the demo replaces the payload, the location is classified, the
    risk is analysed.  An exception ends the run in the handler's [except]. *)
Definition check_risk (use_demo : bool) (mode : loc_mode)
    (auto_elev force_mountain : bool) (fetched_weather : pyval)
    (elevation_outcome : http_outcome) : res (assessment * pyval * bool) :=
  let weather_json := if use_demo then demo_weather else fetched_weather in
  '(elevation, is_mountainous) ←
    classify_location use_demo mode auto_elev force_mountain
      (fetch_elevation elevation_outcome);
  result ← analyze_risk lower fmt weather_json is_mountainous;
  mret (result, elevation, is_mountainous).

(** Lines 302-323: what is written to the page. *)
Definition render (result : assessment) (elevation : pyval)
    (is_mountainous : bool) : list ui :=
  let raw := raw_dict (raw result) in
  ([ Header ("Risk level: " ++ level result);
     Subheader "Why this assessment?" ]
   ++ map (fun r => Write ("- " ++ r)) (reasons result)
   ++ [ Subheader "Recommendations" ]
   ++ map (fun a => Write ("- " ++ a)) (advice result)
   ++ [ Markdown "---";
        Subheader "Weather snapshot (raw values)";
        Write ("Temperature: " ++ fmt (dict_get raw "temp_c" (PStr "N/A")) ++ " °C");
        Write ("Weather: " ++ fmt (dict_get raw "weather_main" (PStr ""))
               ++ " — " ++ fmt (dict_get raw "weather_desc" (PStr "")));
        Write ("Wind speed: " ++ fmt (dict_get raw "wind_speed" (PStr "N/A")) ++ " m/s");
        Write ("Rain (1h): " ++ fmt (dict_get raw "rain_1h" (PNum (NFloat 0.0))) ++ " mm");
        Write ("Snow (1h): " ++ fmt (dict_get raw "snow_1h" (PNum (NFloat 0.0))) ++ " mm") ]
   ++ (if negb (is_none elevation) then
         [ Write ("Elevation (auto-detected): " ++ fmt elevation ++ " m");
           Write ("Mountainous (threshold " ++ fmt (PNum ELEVATION_MOUNTAIN_THRESHOLD)
                  ++ " m): " ++ (if is_mountainous then "Yes" else "No")) ]
       else
         [ Write "Elevation: N/A (provide lat/lon and enable auto-detect to fetch elevation)." ]))%list.

End Handler.

(** ** More expressions used to state properties *)

(** The three categories in order of severity. *)
Definition level_rank (lv : string) : nat :=
  if String.eqb lv "High" then 2%nat
  else if String.eqb lv "Medium" then 1%nat
  else 0%nat.

(** At least two of three conditions hold. *)
Definition at_least_two (a b c : bool) : bool :=
  a && b || a && c || b && c.

(** The parsed locals with another rain (snow) volume. *)
Definition with_rain_1h (p : snapshot) (v : pyval) : snapshot :=
  {| temp_c := temp_c p; wind_speed := wind_speed p;
     rain_1h := v; snow_1h := snow_1h p;
     weather_main := weather_main p; weather_desc := weather_desc p |}.

Definition with_snow_1h (p : snapshot) (v : pyval) : snapshot :=
  {| temp_c := temp_c p; wind_speed := wind_speed p;
     rain_1h := rain_1h p; snow_1h := v;
     weather_main := weather_main p; weather_desc := weather_desc p |}.

(** The sections of the thunderstorm payload: "weather" alone. *)
Definition storm_fields : gmap string pyval :=
  <["weather" :=
      PList [PDict (<["main" := PStr "Thunderstorm"]>
                    (<["description" := PStr "thunderstorm"]> ∅))]]> ∅.

(** A response of the elevation service with one result at 2228 m. *)
Definition elevation_response : pyval :=
  PDict (<["results" :=
            PList [PDict (<["elevation" := PNum (NInt 2228)]> ∅)]]> ∅).

(** Freezing rain reported in words, with a volume that is not a number. *)
Definition freezing_rain_locals : snapshot :=
  {| temp_c := PNum (NFloat (-1.5));
     wind_speed := PNum (NFloat 4.0);
     rain_1h := PStr "trace";
     snow_1h := PNum (NFloat 0.0);
     weather_main := "freezing rain";
     weather_desc := "light freezing rain" |}.

(** ** The stages of [analyze_risk] on typed input *)

Section Stages.

Variable lower : string -> string.
Variable fmt : pyval -> string.

Lemma hazard_flags_observe (o : WeatherObservation) :
  hazard_flags (observe o) = Ok (observed_flags o).
Proof.
  destruct o as [cm cd t ws rn sn].
  unfold hazard_flags, observed_flags, observe, py_ge, py_le.
  cbn -[num_ge num_le contains].
  destruct (contains "rain" cm), (num_ge rn PRECIP_THRESHOLD_MM),
    (contains "snow" cm), t as [t|]; reflexivity.
Qed.

Lemma risk_score_flags (p : snapshot) (f : flags) (m : bool) :
  risk_score fmt p f m
  = score_of_flags (has_rain f) (has_snow f) (is_windy f) (is_cold f)
      (is_stormy p) m.
Proof.
  unfold risk_score, evaluate_risk, score_of_flags, hazard, add_points.
  destruct f as [[] [] [] []]; simpl;
    destruct (is_stormy p); simpl;
    destruct (String.eqb (weather_main p) "clear"); reflexivity.
Qed.

Lemma reasons_flags (p : snapshot) (f : flags) (m : bool) :
  (evaluate_risk fmt p f m).1
  = (when (has_rain f)
       ("Precipitation detected (rain ~ " ++ fmt (rain_1h p) ++ " mm in last hour).")
     ++ when (has_snow f)
       ("Snow detected (snow ~ " ++ fmt (snow_1h p) ++ " mm in last hour).")
     ++ when (is_windy f)
       ("Strong wind (~" ++ fmt (wind_speed p) ++ " m/s).")
     ++ when (is_cold f)
       ("Low temperature (" ++ fmt (temp_c p) ++ " °C).")
     ++ when (is_stormy p)
       ("Thunderstorm / storm conditions reported: " ++ weather_desc p ++ ".")
     ++ when (String.eqb (weather_main p) "clear"
              && negb (has_rain f || has_snow f || is_windy f || is_cold f))
       CLEAR_REASON)%list.
Proof.
  unfold evaluate_risk, hazard, when.
  destruct f as [[] [] [] []]; simpl;
    destruct (is_stormy p); simpl;
    destruct (String.eqb (weather_main p) "clear"); reflexivity.
Qed.

Lemma assess_flags (p : snapshot) (f : flags) (m : bool) :
  hazard_flags p = Ok f ->
  assess fmt p m
  = Ok {| level :=
            (lowland_adjust m (categorize (risk_score fmt p f m)).1
               (evaluate_risk fmt p f m).1).1;
          reasons :=
            (lowland_adjust m (categorize (risk_score fmt p f m)).1
               (evaluate_risk fmt p f m).1).2;
          advice := (categorize (risk_score fmt p f m)).2;
          raw := p |}.
Proof.
  intros Hf. unfold assess, risk_score. rewrite Hf. cbn [mbind res_bind].
  destruct (evaluate_risk fmt p f m) as [rs sc]. cbn [fst snd].
  destruct (categorize sc) as [lv adv]. cbn [fst snd].
  destruct (lowland_adjust m lv rs) as [lv' rs']. reflexivity.
Qed.

(** *** Parsing a payload of the provider's shape *)

Lemma parse_condition_well_formed (d : gmap string pyval) :
  optional d "weather" condition_list = true ->
  exists mn dsc : string, parse_condition lower (PDict d) = Ok (mn, dsc).
Proof.
  unfold optional, parse_condition, py_in, py_getitem.
  destruct (d !! "weather") as [v|]; [| intros _; do 2 eexists; reflexivity].
  destruct v as [| | | |l|]; try discriminate.
  destruct l as [|w0 l]; [intros _; do 2 eexists; reflexivity |].
  destruct w0 as [| | | | |c]; try discriminate.
  unfold condition_list, optional. intros [Hm Hd]%andb_prop.
  cbn -[String.append].
  destruct (c !! "main") as [[]|]; try discriminate;
    destruct (c !! "description") as [[]|]; try discriminate;
    do 2 eexists; reflexivity.
Qed.

Lemma parse_precip_well_formed (d : gmap string pyval) (k : string) :
  optional d k (record_with "1h" is_number) = true ->
  exists n : pynum, parse_precip (PDict d) k = Ok (PNum n).
Proof.
  unfold optional, parse_precip, py_in, py_getitem.
  destruct (d !! k) as [v|]; [| intros _; eexists; reflexivity].
  destruct v as [| | | | |sub]; try discriminate.
  unfold record_with, optional. cbn.
  destruct (sub !! "1h") as [[]|]; try discriminate;
    intros _; eexists; reflexivity.
Qed.

Lemma parse_fields_well_formed (w : pyval) :
  well_formed w = true ->
  exists o : WeatherObservation, parse_fields lower w = Ok (observe o).
Proof.
  destruct w as [| | | | |d]; try discriminate.
  unfold well_formed.
  intros [[[[Hw Hm]%andb_prop Hs]%andb_prop Hr]%andb_prop Hn]%andb_prop.
  destruct (parse_condition_well_formed d Hw) as (mn & dsc & Ec).
  destruct (parse_precip_well_formed d "rain" Hr) as (rnw & Er).
  destruct (parse_precip_well_formed d "snow" Hn) as (snw & En).
  unfold parse_fields. rewrite Ec, Er, En.
  unfold optional, record_with in Hm, Hs. cbn.
  destruct (d !! "main") as [[| | | | |main]|]; try discriminate;
    destruct (d !! "wind") as [[| | | | |wind]|]; try discriminate; cbn.
  all: unfold optional in Hm, Hs.
  all: try (destruct (main !! "temp") as [[| |tmp| | |]|]; try discriminate).
  all: try (destruct (wind !! "speed") as [[| |spd| | |]|]; try discriminate).
  all: cbn.
  all: first
    [ by exists {| conditionMain := mn; conditionDescription := dsc;
                   temperatureC := Some tmp; windSpeedMs := spd;
                   rain1h := rnw; snow1h := snw |}
    | by exists {| conditionMain := mn; conditionDescription := dsc;
                   temperatureC := None; windSpeedMs := spd;
                   rain1h := rnw; snow1h := snw |}
    | by exists {| conditionMain := mn; conditionDescription := dsc;
                   temperatureC := Some tmp; windSpeedMs := NFloat 0.0;
                   rain1h := rnw; snow1h := snw |}
    | by exists {| conditionMain := mn; conditionDescription := dsc;
                   temperatureC := None; windSpeedMs := NFloat 0.0;
                   rain1h := rnw; snow1h := snw |} ].
Qed.

(** *** A precipitation record without the ["1h"] key *)

Lemma parse_precip_empty (d sub : gmap string pyval) (k : string) :
  d !! k = Some (PDict sub) ->
  sub !! "1h" = None ->
  parse_precip (PDict d) k = Ok (PNum (NFloat 0.0)).
Proof.
  intros Hd Hs. unfold parse_precip, py_in, py_getitem, py_get.
  rewrite Hd. cbn. rewrite Hs. reflexivity.
Qed.

Lemma parse_precip_absent (d : gmap string pyval) (k : string) :
  parse_precip (PDict (delete k d)) k = Ok (PNum (NFloat 0.0)).
Proof.
  unfold parse_precip, py_in. rewrite lookup_delete_eq. reflexivity.
Qed.

Lemma parse_precip_other (d : gmap string pyval) (k k' : string) :
  k <> k' ->
  parse_precip (PDict (delete k d)) k' = parse_precip (PDict d) k'.
Proof.
  intros Hk. unfold parse_precip, py_in, py_getitem.
  rewrite lookup_delete_ne by exact Hk. reflexivity.
Qed.

Lemma parse_condition_delete (d : gmap string pyval) (k : string) :
  k <> "weather" ->
  parse_condition lower (PDict (delete k d)) = parse_condition lower (PDict d).
Proof.
  intros Hk. unfold parse_condition, py_in, py_getitem.
  rewrite lookup_delete_ne by exact Hk. reflexivity.
Qed.

Lemma parse_fields_drop_rain (d sub : gmap string pyval) :
  d !! "rain" = Some (PDict sub) ->
  sub !! "1h" = None ->
  parse_fields lower (PDict (delete "rain" d)) = parse_fields lower (PDict d).
Proof.
  intros Hd Hs. unfold parse_fields.
  rewrite parse_condition_delete by discriminate.
  rewrite parse_precip_absent, (parse_precip_empty d sub "rain" Hd Hs).
  rewrite parse_precip_other by discriminate.
  unfold py_get. rewrite !lookup_delete_ne by discriminate. reflexivity.
Qed.

Lemma parse_fields_drop_snow (d sub : gmap string pyval) :
  d !! "snow" = Some (PDict sub) ->
  sub !! "1h" = None ->
  parse_fields lower (PDict (delete "snow" d)) = parse_fields lower (PDict d).
Proof.
  intros Hd Hs. unfold parse_fields.
  rewrite parse_condition_delete by discriminate.
  rewrite parse_precip_absent, (parse_precip_empty d sub "snow" Hd Hs).
  rewrite parse_precip_other by discriminate.
  unfold py_get. rewrite !lookup_delete_ne by discriminate. reflexivity.
Qed.

(** The snapshot of a returned assessment holds the parsed locals. *)
Lemma analyze_risk_raw (w : pyval) (m : bool) (a : assessment) :
  analyze_risk lower fmt w m = Ok a ->
  parse_fields lower w = Ok (raw a).
Proof.
  unfold analyze_risk, assess.
  destruct (parse_fields lower w) as [p|e]; [| discriminate].
  cbn [mbind res_bind].
  destruct (hazard_flags p) as [f|e]; [| discriminate].
  cbn [mbind res_bind].
  destruct (evaluate_risk fmt p f m) as [rs sc].
  destruct (categorize sc) as [lv adv].
  destruct (lowland_adjust m lv rs) as [lv' rs'].
  intros [= <-]. reflexivity.
Qed.

(** The rain and snow locals are what [parse_precip] returns. *)
Lemma parse_fields_precip (w : pyval) (p : snapshot) :
  parse_fields lower w = Ok p ->
  parse_precip w "rain" = Ok (rain_1h p)
  /\ parse_precip w "snow" = Ok (snow_1h p).
Proof.
  unfold parse_fields.
  destruct (parse_condition lower w) as [[mn dsc]|e]; [| discriminate].
  cbn [mbind res_bind].
  destruct (py_get w "main" (PDict ∅)) as [main|e]; [| discriminate].
  cbn [mbind res_bind].
  destruct (py_get main "temp" PNone) as [tmp|e]; [| discriminate].
  cbn [mbind res_bind].
  destruct (py_get w "wind" (PDict ∅)) as [wind|e]; [| discriminate].
  cbn [mbind res_bind].
  destruct (py_get wind "speed" (PNum (NFloat 0.0))) as [spd|e]; [| discriminate].
  cbn [mbind res_bind].
  destruct (parse_precip w "rain") as [rnw|e]; [| discriminate].
  cbn [mbind res_bind].
  destruct (parse_precip w "snow") as [snw|e]; [| discriminate].
  cbn [mbind res_bind].
  intros [= <-]. split; reflexivity.
Qed.

Lemma analyze_risk_well_formed (w : pyval) (m : bool) :
  well_formed w = true ->
  exists (o : WeatherObservation) (a : assessment),
    parse_fields lower w = Ok (observe o)
    /\ analyze_risk lower fmt w m = Ok a
    /\ raw a = observe o.
Proof.
  intros Hw. destruct (parse_fields_well_formed w Hw) as (o & Ep).
  exists o; eexists. split; [exact Ep |].
  unfold analyze_risk. rewrite Ep. cbn [mbind res_bind].
  split; [apply assess_flags, hazard_flags_observe | reflexivity].
Qed.

End Stages.

(** The exact value of the score, for each combination of flags. *)
Lemma score_of_flags_value (rain snow windy cold stormy m : bool) :
  exists q : Q,
    num_value (score_of_flags rain snow windy cold stormy m) = Some q
    /\ (q == fired rain * (2 * weight_of m)
             + fired snow * (3 * weight_of m)
             + fired windy * (2 * weight_of m)
             + fired cold * ((3 # 2) * weight_of m)
             + fired stormy * (3 * weight_of m))%Q.
Proof.
  destruct rain, snow, windy, cold, stormy, m;
    (eexists; split; [vm_compute; reflexivity | vm_compute; reflexivity]).
Qed.

(** The category of the score, for each combination of flags, read off the
    exact value. *)
Lemma categorize_score_of_flags (rain snow windy cold stormy m : bool) :
  exists q : Q,
    num_value (score_of_flags rain snow windy cold stormy m) = Some q
    /\ categorize (score_of_flags rain snow windy cold stormy m)
       = if Qle_bool 6 q then ("High", advice_high)
         else if Qle_bool (5 # 2) q then ("Medium", advice_medium)
         else ("Low", advice_low).
Proof.
  destruct rain, snow, windy, cold, stormy, m;
    (eexists; split; [vm_compute; reflexivity | vm_compute; reflexivity]).
Qed.

(** Off the mountains every flag counts half. *)
Lemma score_of_flags_lowland (rain snow windy cold stormy : bool) :
  exists ql qh : Q,
    num_value (score_of_flags rain snow windy cold stormy false) = Some ql
    /\ num_value (score_of_flags rain snow windy cold stormy true) = Some qh
    /\ (ql <= qh)%Q
    /\ num_le (score_of_flags rain snow windy cold stormy false)
              (score_of_flags rain snow windy cold stormy true) = true.
Proof.
  destruct rain, snow, windy, cold, stormy;
    (do 2 eexists; split; [vm_compute; reflexivity |];
     split; [vm_compute; reflexivity |];
     split; [unfold Qle; simpl; lia | vm_compute; reflexivity]).
Qed.

Lemma categorize_level (score : pynum) :
  (categorize score).1 = "High"
  \/ (categorize score).1 = "Medium"
  \/ (categorize score).1 = "Low".
Proof.
  unfold categorize.
  destruct (num_ge score (NInt 6)); [left; reflexivity |].
  destruct (num_ge score (NFloat 2.5)); [right; left | right; right]; reflexivity.
Qed.

Lemma lowland_adjust_reasons (m : bool) (lv : string) (rs : list string) :
  (lowland_adjust m lv rs).2 = (when (negb m) NOT_MOUNTAINOUS_NOTE ++ rs)%list.
Proof. destruct m; reflexivity. Qed.

Lemma lowland_adjust_level (m : bool) (lv : string) (rs : list string) :
  (lowland_adjust m lv rs).1
  = if negb m && String.eqb lv "High" then lv ++ LOWLAND_SUFFIX else lv.
Proof. destruct m; reflexivity. Qed.

(** One more flag of 2 points on the mountains adds exactly 4. *)
Lemma score_of_flags_rain (snow windy cold stormy : bool) :
  exists qd qw : Q,
    num_value (score_of_flags false snow windy cold stormy true) = Some qd
    /\ num_value (score_of_flags true snow windy cold stormy true) = Some qw
    /\ (qw == qd + 4)%Q.
Proof.
  destruct snow, windy, cold, stormy;
    (do 2 eexists; split; [vm_compute; reflexivity |];
     split; vm_compute; reflexivity).
Qed.

(** *** The thresholds *)

(** The wind and category thresholds are the numbers written; the
    precipitation threshold is the double next to one tenth. *)
Lemma threshold_values :
  (exists q : Q, num_value WIND_STRONG_THRESHOLD = Some q /\ (q == 10)%Q)
  /\ (exists q : Q, num_value (NFloat 2.5) = Some q /\ (q == 5 # 2)%Q)
  /\ (exists q : Q, num_value (NFloat 1.5) = Some q /\ (q == 3 # 2)%Q)
  /\ (exists q : Q,
        num_value PRECIP_THRESHOLD_MM = Some q
        /\ (q == 3602879701896397 # 36028797018963968)%Q).
Proof.
  repeat split; eexists; split; vm_compute; reflexivity.
Qed.

(** An int reaches the precipitation threshold from 1 on, the wind threshold
    from 10 on. *)
Lemma int_reaches_thresholds (z : Z) :
  num_ge (NInt z) PRECIP_THRESHOLD_MM = (1 <=? z)
  /\ num_ge (NInt z) WIND_STRONG_THRESHOLD = (10 <=? z).
Proof.
  unfold num_ge, num_le, PRECIP_THRESHOLD_MM, WIND_STRONG_THRESHOLD, float_le_Z.
  split.
  - replace (Prim2SF 0.1) with (S754_finite false 7205759403792794 (-56))
      by (vm_compute; reflexivity).
    cbn [signed]. replace (0 <=? -56) with false by reflexivity.
    replace (2 ^ (- -56)) with 72057594037927936 by reflexivity.
    destruct (Z.leb_spec 1 z), (Z.leb_spec 7205759403792794 (z * 72057594037927936));
      try reflexivity; lia.
  - replace (Prim2SF 10.0) with (S754_finite false 5629499534213120 (-49))
      by (vm_compute; reflexivity).
    cbn [signed]. replace (0 <=? -49) with false by reflexivity.
    replace (2 ^ (- -49)) with 562949953421312 by reflexivity.
    destruct (Z.leb_spec 10 z), (Z.leb_spec 5629499534213120 (z * 562949953421312));
      try reflexivity; lia.
Qed.

(** An int and a float are compared on their exact values: 2^53 + 1 is above
    the double 2^53, to which it would round. *)
Example exact_mixed_comparison :
  num_le (NInt (2 ^ 53 + 1)) (NFloat 9007199254740992.0) = false
  /\ num_le (NFloat 9007199254740992.0) (NInt (2 ^ 53 + 1)) = true
  /\ float_of_Z (2 ^ 53 + 1) = 9007199254740992.0%float
  /\ num_le (NInt 3) (NFloat 3.5) = true
  /\ num_le (NFloat 3.5) (NInt 3) = false
  /\ num_le (NFloat nan) (NInt 0) = false
  /\ num_le (NInt 0) (NFloat nan) = false.
Proof. repeat split; vm_compute; reflexivity. Qed.

(** *** Scenarios *)

Example demo_scenario :
  run demo_weather true
  = Ok {| level := "Low";
          reasons := ["Clear conditions currently."];
          advice := advice_low;
          raw := observe demo_observation |}.
Proof. vm_compute. reflexivity. Qed.

Example storm_scenario_mountain :
  level <$> option_of_res (run storm_weather true) = Some "High"
  /\ reasons <$> option_of_res (run storm_weather true)
     = Some ["Thunderstorm / storm conditions reported: thunderstorm."].
Proof. split; vm_compute; reflexivity. Qed.

Example storm_scenario_lowland :
  level <$> option_of_res (run storm_weather false) = Some "Medium"
  /\ reasons <$> option_of_res (run storm_weather false)
     = Some [NOT_MOUNTAINOUS_NOTE;
             "Thunderstorm / storm conditions reported: thunderstorm."].
Proof. split; vm_compute; reflexivity. Qed.

(** Outside the declared domain the comparisons can raise: a [null] volume
    is compared with the threshold. *)
Example null_rain_raises :
  well_formed null_rain_weather = false
  /\ run null_rain_weather true = Raise TypeError.
Proof. split; vm_compute; reflexivity. Qed.

(** * The properties *)

Section Properties.

Variable lower : string -> string.
Variable fmt : pyval -> string.

(** C1: for every observation and mountainous flag, the flags are computed as
    specified (rain: main text contains "rain", or at least 0.1 mm in the last
    hour, or the description contains "shower"; snow: main text contains
    "snow" or at least 0.1 mm; wind: at least 10.0 m/s; cold: a temperature is
    present and at most 0; storm: the description contains "thunder" or
    "storm"), and the score is exactly the sum over the fired flags of 2, 3, 2,
    1.5 and 3, each times the weight, 2 on mountains and 1 elsewhere. *)
Theorem hazard_flags_and_score (o : WeatherObservation) (m : bool) :
  let hasRain := contains "rain" (conditionMain o)
                 || num_ge (rain1h o) (NFloat 0.1)
                 || contains "shower" (conditionDescription o) in
  let hasSnow := contains "snow" (conditionMain o)
                 || num_ge (snow1h o) (NFloat 0.1) in
  let isWindy := num_ge (windSpeedMs o) (NFloat 10.0) in
  let isCold := match temperatureC o with
                | Some t => num_le t (NInt 0)
                | None => false
                end in
  let isStormy := contains "thunder" (conditionDescription o)
                  || contains "storm" (conditionDescription o) in
  let f := {| has_rain := hasRain; has_snow := hasSnow;
              is_windy := isWindy; is_cold := isCold |} in
  hazard_flags (observe o) = Ok f
  /\ is_stormy (observe o) = isStormy
  /\ exists q : Q,
       num_value (risk_score fmt (observe o) f m) = Some q
       /\ (q == fired hasRain * (2 * weight_of m)
                + fired hasSnow * (3 * weight_of m)
                + fired isWindy * (2 * weight_of m)
                + fired isCold * ((3 # 2) * weight_of m)
                + fired isStormy * (3 * weight_of m))%Q.
Proof.
  intros hasRain hasSnow isWindy isCold isStormy f.
  split; [apply hazard_flags_observe |].
  split; [reflexivity |].
  rewrite risk_score_flags.
  apply score_of_flags_value.
Qed.

(** C2: for every observation and mountainous flag, the base level follows
    from the score by the first threshold that matches, in the order: at least
    6 gives "High", else at least 2.5 gives "Medium", else "Low"; the advice
    is the fixed list of the level, three texts for High, three for Medium and
    two for Low. *)
Theorem category_by_thresholds (o : WeatherObservation) (m : bool) :
  exists (f : flags) (q : Q) (a : assessment),
    hazard_flags (observe o) = Ok f
    /\ num_value (risk_score fmt (observe o) f m) = Some q
    /\ assess fmt (observe o) m = Ok a
    /\ categorize (risk_score fmt (observe o) f m)
       = (if Qle_bool 6 q then "High"
          else if Qle_bool (5 # 2) q then "Medium"
          else "Low",
          advice a)
    /\ advice a
       = (if Qle_bool 6 q then advice_high
          else if Qle_bool (5 # 2) q then advice_medium
          else advice_low)
    /\ List.length advice_high = 3%nat
    /\ List.length advice_medium = 3%nat
    /\ List.length advice_low = 2%nat.
Proof.
  pose proof (hazard_flags_observe o) as Hf.
  set (f := observed_flags o) in Hf.
  destruct (categorize_score_of_flags (has_rain f) (has_snow f) (is_windy f)
              (is_cold f) (is_stormy (observe o)) m) as (q & Hq & Hc).
  rewrite <- (risk_score_flags fmt) in Hq, Hc.
  exists f, q; eexists.
  split; [exact Hf |]. split; [exact Hq |].
  split; [apply assess_flags; exact Hf |].
  cbn [advice]. rewrite Hc.
  destruct (Qle_bool 6 q); [repeat split |].
  destruct (Qle_bool (5 # 2) q); repeat split.
Qed.

(** C3: the mountainous classification is a total decision table over the
    override and the optional elevation: with the override the result is true
    whatever the elevation; without it the result is true exactly when an
    elevation is present and at least 1000 (999 gives false, 1000 gives true),
    and false when the elevation is absent. *)
Theorem mountainous_decision_table (auto_elev force_mountain : bool)
    (e : option pynum) :
  let elevation := if auto_elev then e else None in
  let high := match elevation with
              | Some x => num_ge x (NInt 1000)
              | None => false
              end in
  classify_coords auto_elev force_mountain (opt_num e)
  = Ok (opt_num elevation, force_mountain || high)
  /\ classify_coords auto_elev true (opt_num e) = Ok (opt_num elevation, true)
  /\ classify_coords true false (PNum (NInt 999)) = Ok (PNum (NInt 999), false)
  /\ classify_coords true false (PNum (NInt 1000)) = Ok (PNum (NInt 1000), true)
  /\ classify_coords true false (PNum (NFloat 999.0)) = Ok (PNum (NFloat 999.0), false)
  /\ classify_coords true false (PNum (NFloat 1000.0)) = Ok (PNum (NFloat 1000.0), true)
  /\ classify_coords auto_elev false PNone = Ok (PNone, false)
  /\ forall (use_demo : bool) (mode : loc_mode),
       exists known : option pynum,
         classify_location use_demo mode auto_elev force_mountain (opt_num e)
         = Ok (opt_num known,
               force_mountain
               || match known with
                  | Some x => num_ge x (NInt 1000)
                  | None => false
                  end).
Proof.
  cbv zeta.
  assert (Hc : classify_coords auto_elev force_mountain (opt_num e)
               = Ok (opt_num (if auto_elev then e else None),
                     force_mountain
                     || match (if auto_elev then e else None) with
                        | Some x => num_ge x (NInt 1000)
                        | None => false
                        end))
    by (destruct auto_elev, force_mountain, e as [x|]; reflexivity).
  split; [exact Hc |].
  split; [destruct auto_elev, e as [x|]; reflexivity |].
  do 4 (split; [vm_compute; reflexivity |]).
  split; [destruct auto_elev; reflexivity |].
  intros [] mode.
  - exists (Some (NInt 3200)). destruct force_mountain; reflexivity.
  - destruct mode.
    + exists None. reflexivity.
    + eexists. exact Hc.
Qed.

(** C5: for every observation and mountainous flag, the level is "Low",
    "Medium", "High", or "High" followed by the lowland suffix; the suffix is
    there exactly when the flag is false and the base level is "High", and a
    suffixed level starts with "High". *)
Theorem level_is_one_of_four (o : WeatherObservation) (m : bool) :
  exists (f : flags) (a : assessment),
    hazard_flags (observe o) = Ok f
    /\ assess fmt (observe o) m = Ok a
    /\ (level a = "Low" \/ level a = "Medium" \/ level a = "High"
        \/ level a = "High (mountain hazard less likely due to low elevation)")
    /\ (level a = "High" ++ " (mountain hazard less likely due to low elevation)"
        <-> m = false
            /\ (categorize (risk_score fmt (observe o) f m)).1 = "High")
    /\ (level a <> "High" ++ " (mountain hazard less likely due to low elevation)"
        -> level a = (categorize (risk_score fmt (observe o) f m)).1)
    /\ (level a = "High" ++ " (mountain hazard less likely due to low elevation)"
        -> String.prefix "High" (level a) = true).
Proof.
  pose proof (hazard_flags_observe o) as Hf.
  set (f := observed_flags o) in Hf.
  exists f; eexists.
  split; [exact Hf |].
  split; [apply assess_flags; exact Hf |].
  cbn [level]. rewrite lowland_adjust_level.
  destruct (categorize_level (risk_score fmt (observe o) f m)) as [E | [E | E]];
    rewrite E; destruct m; cbn;
    repeat split; auto; intros; try discriminate; try tauto;
    match goal with
    | H : _ /\ _ |- _ => destruct H; discriminate
    | H : ?x <> ?x |- _ => destruct H; reflexivity
    | _ => idtac
    end.
Qed.

(** C6: for every observation and mountainous flag, the reasons come in the
    fixed order rain, snow, wind, cold, storm, clear, one per fired flag with
    its measured value, and off the mountains the note comes first, at
    position 0. *)
Theorem reasons_in_flag_order (o : WeatherObservation) (m : bool) :
  exists (f : flags) (a : assessment),
    hazard_flags (observe o) = Ok f
    /\ assess fmt (observe o) m = Ok a
    /\ reasons a
       = (when (negb m) NOT_MOUNTAINOUS_NOTE
          ++ when (has_rain f)
               ("Precipitation detected (rain ~ " ++ fmt (PNum (rain1h o))
                ++ " mm in last hour).")
          ++ when (has_snow f)
               ("Snow detected (snow ~ " ++ fmt (PNum (snow1h o))
                ++ " mm in last hour).")
          ++ when (is_windy f)
               ("Strong wind (~" ++ fmt (PNum (windSpeedMs o)) ++ " m/s).")
          ++ when (is_cold f)
               ("Low temperature (" ++ fmt (opt_num (temperatureC o)) ++ " °C).")
          ++ when (is_stormy (observe o))
               ("Thunderstorm / storm conditions reported: "
                ++ conditionDescription o ++ ".")
          ++ when (String.eqb (conditionMain o) "clear"
                   && negb (has_rain f || has_snow f || is_windy f || is_cold f))
               "Clear conditions currently.")%list
    /\ (m = false -> reasons a !! 0%nat = Some NOT_MOUNTAINOUS_NOTE).
Proof.
  pose proof (hazard_flags_observe o) as Hf.
  set (f := observed_flags o) in Hf.
  exists f; eexists.
  split; [exact Hf |].
  split; [apply assess_flags; exact Hf |].
  cbn [reasons]. rewrite lowland_adjust_reasons, reasons_flags.
  split; [reflexivity |].
  intros ->. reflexivity.
Qed.

(** C9: for every observation, the score with the mountainous flag false is
    lower than or equal to the score with the flag true. *)
Theorem lowland_score_not_higher (o : WeatherObservation) :
  exists (f : flags) (ql qh : Q),
    hazard_flags (observe o) = Ok f
    /\ num_value (risk_score fmt (observe o) f false) = Some ql
    /\ num_value (risk_score fmt (observe o) f true) = Some qh
    /\ (ql <= qh)%Q
    /\ num_le (risk_score fmt (observe o) f false)
              (risk_score fmt (observe o) f true) = true.
Proof.
  pose proof (hazard_flags_observe o) as Hf.
  set (f := observed_flags o) in Hf.
  destruct (score_of_flags_lowland (has_rain f) (has_snow f) (is_windy f)
              (is_cold f) (is_stormy (observe o))) as (ql & qh & H).
  rewrite <- !(risk_score_flags fmt) in H.
  exists f, ql, qh. split; [exact Hf | exact H].
Qed.

(** C4, amended: for every observation and mountainous flag, the reasons are
    empty exactly when the flag is true, none of the five hazard flags fires
    and the main text is not "clear"; in every other case the list is not
    empty.  The clear-conditions reason is among the reasons exactly when the
    main text is "clear" and none of rain, snow, wind and cold fires, and it
    is then the last reason. *)
Theorem reasons_empty_iff (o : WeatherObservation) (m : bool) :
  exists (f : flags) (a : assessment),
    hazard_flags (observe o) = Ok f
    /\ assess fmt (observe o) m = Ok a
    /\ (reasons a = []
        <-> m = true
            /\ has_rain f = false /\ has_snow f = false
            /\ is_windy f = false /\ is_cold f = false
            /\ is_stormy (observe o) = false
            /\ conditionMain o <> "clear")
    /\ (has_rain f = false -> has_snow f = false ->
        is_windy f = false -> is_cold f = false ->
        conditionMain o = "clear" ->
        last (reasons a) = Some "Clear conditions currently.")
    /\ (In "Clear conditions currently." (reasons a)
        <-> conditionMain o = "clear"
            /\ has_rain f = false /\ has_snow f = false
            /\ is_windy f = false /\ is_cold f = false).
Proof.
  pose proof (hazard_flags_observe o) as Hf.
  set (f := observed_flags o) in Hf.
  exists f; eexists.
  split; [exact Hf |].
  split; [apply assess_flags; exact Hf |].
  cbn [reasons]. rewrite lowland_adjust_reasons, reasons_flags.
  cbn [observe weather_main].
  unfold NOT_MOUNTAINOUS_NOTE, CLEAR_REASON.
  destruct (String.eqb_spec (conditionMain o) "clear") as [Ec | Ec];
    destruct m, (has_rain f), (has_snow f), (is_windy f), (is_cold f),
      (is_stormy (observe o)); cbn;
    (split; [split; [intros; try discriminate; repeat split; auto
                    | intros (? & ? & ? & ? & ? & ? & ?);
                      try discriminate; try reflexivity; tauto]
            |]);
    (split; [intros; try discriminate; try tauto; reflexivity |]);
    (split;
     [ intros H;
       repeat (destruct H as [H | H]; [try discriminate H |]);
       try contradiction; subst; repeat split; auto
     | intros (? & ? & ? & ? & ?);
       try discriminate; try contradiction; auto 10 ]).
Qed.

(** C7: the assessment is total on the declared input domain: for every
    observation, and for every payload of the provider's shape with fields
    absent or typed as declared, and every mountainous flag, an assessment is
    returned and no exception is raised. *)
Theorem analyze_risk_total (w : pyval) (o : WeatherObservation) (m : bool) :
  well_formed w = true ->
  (exists a : assessment, analyze_risk lower fmt w m = Ok a)
  /\ (exists a : assessment, assess fmt (observe o) m = Ok a).
Proof.
  intros Hw. split.
  - destruct (analyze_risk_well_formed lower fmt w m Hw) as (o' & a & _ & Ha & _).
    exists a. exact Ha.
  - eexists. apply assess_flags, hazard_flags_observe.
Qed.

(** C8, amended: for every observation whose main text does not contain
    "rain" and whose description does not contain "shower", with the
    mountainous flag true, taking the last-hour rain from 0.05 to 0.5 with
    the other fields fixed turns the rain flag from false to true, leaves the
    other flags as they are, and raises the score by exactly 4. *)
Theorem rain_step_raises_score (o : WeatherObservation) :
  contains "rain" (conditionMain o) = false ->
  contains "shower" (conditionDescription o) = false ->
  exists (fd fw : flags) (qd qw : Q),
    hazard_flags (observe (with_rain1h o (NFloat 0.05))) = Ok fd
    /\ hazard_flags (observe (with_rain1h o (NFloat 0.5))) = Ok fw
    /\ has_rain fd = false
    /\ has_rain fw = true
    /\ has_snow fw = has_snow fd
    /\ is_windy fw = is_windy fd
    /\ is_cold fw = is_cold fd
    /\ num_value (risk_score fmt (observe (with_rain1h o (NFloat 0.05))) fd true)
       = Some qd
    /\ num_value (risk_score fmt (observe (with_rain1h o (NFloat 0.5))) fw true)
       = Some qw
    /\ (qw == qd + 4)%Q.
Proof.
  intros Hm Hd.
  pose proof (hazard_flags_observe (with_rain1h o (NFloat 0.05))) as Hfd.
  pose proof (hazard_flags_observe (with_rain1h o (NFloat 0.5))) as Hfw.
  set (fd := observed_flags (with_rain1h o (NFloat 0.05))) in *.
  set (fw := observed_flags (with_rain1h o (NFloat 0.5))) in *.
  assert (Ed : has_rain fd = false).
  { subst fd. cbn [observed_flags has_rain with_rain1h conditionMain
                   conditionDescription rain1h].
    rewrite Hm, Hd. vm_compute. reflexivity. }
  assert (Ew : has_rain fw = true).
  { subst fw. cbn [observed_flags has_rain with_rain1h conditionMain
                   conditionDescription rain1h].
    rewrite Hm, Hd. vm_compute. reflexivity. }
  destruct (score_of_flags_rain (has_snow fd) (is_windy fd) (is_cold fd)
              (is_stormy (observe o))) as (qd & qw & Hqd & Hqw & Hq).
  exists fd, fw, qd, qw.
  rewrite !risk_score_flags, Ed, Ew.
  repeat split; try assumption; try reflexivity.
Qed.

(** C10: for every payload whose rain (respectively snow) record is present
    without the "1h" key, as both are in the demo payload, the volume is
    taken as 0.0, the outcome is the one of the payload without the record,
    and the snapshot of the returned assessment holds 0.0. *)
Theorem empty_precip_record_defaults (d sub : gmap string pyval) (m : bool) :
  sub !! "1h" = None ->
  (d !! "rain" = Some (PDict sub) ->
     parse_precip (PDict d) "rain" = Ok (PNum (NFloat 0.0))
     /\ parse_precip (PDict (delete "rain" d)) "rain" = Ok (PNum (NFloat 0.0))
     /\ analyze_risk lower fmt (PDict d) m
        = analyze_risk lower fmt (PDict (delete "rain" d)) m
     /\ (forall a : assessment,
          analyze_risk lower fmt (PDict d) m = Ok a ->
          rain_1h (raw a) = PNum (NFloat 0.0))
     /\ (well_formed (PDict d) = true ->
         exists a : assessment,
           analyze_risk lower fmt (PDict d) m = Ok a
           /\ rain_1h (raw a) = PNum (NFloat 0.0)))
  /\ (d !! "snow" = Some (PDict sub) ->
     parse_precip (PDict d) "snow" = Ok (PNum (NFloat 0.0))
     /\ parse_precip (PDict (delete "snow" d)) "snow" = Ok (PNum (NFloat 0.0))
     /\ analyze_risk lower fmt (PDict d) m
        = analyze_risk lower fmt (PDict (delete "snow" d)) m
     /\ (forall a : assessment,
          analyze_risk lower fmt (PDict d) m = Ok a ->
          snow_1h (raw a) = PNum (NFloat 0.0))
     /\ (well_formed (PDict d) = true ->
         exists a : assessment,
           analyze_risk lower fmt (PDict d) m = Ok a
           /\ snow_1h (raw a) = PNum (NFloat 0.0))).
Proof.
  intros Hs. split; intros Hd.
  - pose proof (parse_precip_empty d sub "rain" Hd Hs) as Hp.
    assert (Hraw : forall a, analyze_risk lower fmt (PDict d) m = Ok a ->
                             rain_1h (raw a) = PNum (NFloat 0.0)).
    { intros a Ha. apply analyze_risk_raw, parse_fields_precip in Ha.
      destruct Ha as [Hr _]. rewrite Hp in Hr. injection Hr as <-. reflexivity. }
    split; [exact Hp |].
    split; [apply parse_precip_absent |].
    split; [unfold analyze_risk;
            rewrite (parse_fields_drop_rain lower d sub Hd Hs); reflexivity |].
    split; [exact Hraw |].
    intros Hw.
    destruct (analyze_risk_well_formed lower fmt (PDict d) m Hw)
      as (o & a & _ & Ha & _).
    exists a. split; [exact Ha | apply Hraw, Ha].
  - pose proof (parse_precip_empty d sub "snow" Hd Hs) as Hp.
    assert (Hraw : forall a, analyze_risk lower fmt (PDict d) m = Ok a ->
                             snow_1h (raw a) = PNum (NFloat 0.0)).
    { intros a Ha. apply analyze_risk_raw, parse_fields_precip in Ha.
      destruct Ha as [_ Hr]. rewrite Hp in Hr. injection Hr as <-. reflexivity. }
    split; [exact Hp |].
    split; [apply parse_precip_absent |].
    split; [unfold analyze_risk;
            rewrite (parse_fields_drop_snow lower d sub Hd Hs); reflexivity |].
    split; [exact Hraw |].
    intros Hw.
    destruct (analyze_risk_well_formed lower fmt (PDict d) m Hw)
      as (o & a & _ & Ha & _).
    exists a. split; [exact Ha | apply Hraw, Ha].
Qed.

End Properties.

(** * Concrete runs *)

(** The demo payload is in the declared domain and is assessed. *)
Lemma analyze_risk_total_demo :
  well_formed demo_weather = true
  /\ (exists a : assessment,
        analyze_risk ascii_lower fmt_plain demo_weather true = Ok a)
  /\ (exists a : assessment,
        assess fmt_plain (observe demo_observation) true = Ok a).
Proof.
  split; [vm_compute; reflexivity |].
  apply (analyze_risk_total ascii_lower fmt_plain demo_weather
           demo_observation true).
  vm_compute; reflexivity.
Defined.

(** On the demo observation the step from 0.05 mm to 0.5 mm of rain fires the
    rain flag and adds 4 to the score. *)
Lemma rain_step_on_demo :
  contains "rain" (conditionMain demo_observation) = false
  /\ contains "shower" (conditionDescription demo_observation) = false
  /\ exists (fd fw : flags) (qd qw : Q),
       hazard_flags (observe (with_rain1h demo_observation (NFloat 0.05))) = Ok fd
       /\ hazard_flags (observe (with_rain1h demo_observation (NFloat 0.5))) = Ok fw
       /\ has_rain fd = false
       /\ has_rain fw = true
       /\ num_value (risk_score fmt_plain
                       (observe (with_rain1h demo_observation (NFloat 0.05)))
                       fd true) = Some qd
       /\ num_value (risk_score fmt_plain
                       (observe (with_rain1h demo_observation (NFloat 0.5)))
                       fw true) = Some qw
       /\ (qw == qd + 4)%Q.
Proof.
  split; [vm_compute; reflexivity |].
  split; [vm_compute; reflexivity |].
  destruct (rain_step_raises_score fmt_plain demo_observation)
    as (fd & fw & qd & qw & H1 & H2 & H3 & H4 & _ & _ & _ & H5 & H6 & H7).
  - vm_compute; reflexivity.
  - vm_compute; reflexivity.
  - exists fd, fw, qd, qw. repeat split; assumption.
Defined.

(** The demo payload carries empty rain and snow records: both volumes are
    0.0 in the snapshot, and dropping either record changes nothing. *)
Lemma empty_precip_records_of_demo :
  (∅ : gmap string pyval) !! "1h" = None
  /\ demo_fields !! "rain" = Some (PDict ∅)
  /\ demo_fields !! "snow" = Some (PDict ∅)
  /\ well_formed (PDict demo_fields) = true
  /\ analyze_risk ascii_lower fmt_plain (PDict demo_fields) true
     = analyze_risk ascii_lower fmt_plain (PDict (delete "rain" demo_fields)) true
  /\ analyze_risk ascii_lower fmt_plain (PDict demo_fields) true
     = analyze_risk ascii_lower fmt_plain (PDict (delete "snow" demo_fields)) true
  /\ (exists a : assessment,
        analyze_risk ascii_lower fmt_plain (PDict demo_fields) true = Ok a
        /\ rain_1h (raw a) = PNum (NFloat 0.0))
  /\ (exists a : assessment,
        analyze_risk ascii_lower fmt_plain (PDict demo_fields) true = Ok a
        /\ snow_1h (raw a) = PNum (NFloat 0.0)).
Proof.
  assert (H1 : (∅ : gmap string pyval) !! "1h" = None)
    by (vm_compute; reflexivity).
  assert (Hr : demo_fields !! "rain" = Some (PDict ∅))
    by (vm_compute; reflexivity).
  assert (Hs : demo_fields !! "snow" = Some (PDict ∅))
    by (vm_compute; reflexivity).
  assert (Hw : well_formed (PDict demo_fields) = true)
    by (vm_compute; reflexivity).
  destruct (empty_precip_record_defaults ascii_lower fmt_plain demo_fields ∅
              true H1) as [Rain Snow].
  destruct (Rain Hr) as (_ & _ & Er & _ & Xr).
  destruct (Snow Hs) as (_ & _ & Es & _ & Xs).
  repeat split; try assumption; [exact (Xr Hw) | exact (Xs Hw)].
Defined.

(** On a mild overcast day on the mountains no flag fires and the main text
    is "clouds": the assessment is returned with no reason at all. *)
Lemma overcast_has_no_reason :
  well_formed overcast_weather = true
  /\ exists a : assessment,
       analyze_risk ascii_lower fmt_plain overcast_weather true = Ok a
       /\ reasons a = [].
Proof.
  split; [vm_compute; reflexivity |].
  eexists. split; [vm_compute; reflexivity | reflexivity].
Qed.

(** When the main text says "rain" the rain flag is set at 0.05 mm already,
    and the score is 4.0 at 0.05 mm and at 0.5 mm: nothing flips and nothing
    is added. *)
Lemma rain_text_blocks_flip :
  exists fd fw : flags,
    hazard_flags (observe (with_rain1h rainy_observation (NFloat 0.05))) = Ok fd
    /\ hazard_flags (observe (with_rain1h rainy_observation (NFloat 0.5))) = Ok fw
    /\ has_rain fd = true
    /\ has_rain fw = true
    /\ risk_score fmt_plain (observe (with_rain1h rainy_observation (NFloat 0.05)))
         fd true = NFloat 4.0
    /\ risk_score fmt_plain (observe (with_rain1h rainy_observation (NFloat 0.5)))
         fw true = NFloat 4.0.
Proof.
  do 2 eexists.
  split; [vm_compute; reflexivity |].
  split; [vm_compute; reflexivity |].
  repeat split; vm_compute; reflexivity.
Qed.

(** * Further properties of the code *)

(** ** Substrings *)

Lemma prefix_app (n b : string) : String.prefix n (n ++ b) = true.
Proof.
  induction n as [|c n IH]; simpl.
  - destruct b; reflexivity.
  - destruct (Ascii.ascii_dec c c) as [_|Hc]; [exact IH | contradiction].
Qed.

Lemma prefix_split (n h : string) :
  String.prefix n h = true -> exists b : string, h = n ++ b.
Proof.
  revert h. induction n as [|c n IH]; intros h Hp.
  - exists h. reflexivity.
  - destruct h as [|c' h]; simpl in Hp; [discriminate |].
    destruct (Ascii.ascii_dec c c') as [->|_]; [| discriminate].
    destruct (IH h Hp) as [b ->]. exists b. reflexivity.
Qed.

(** [contains] is the substring test. *)
Lemma contains_substring (n h : string) :
  contains n h = true <-> exists a b : string, h = a ++ n ++ b.
Proof.
  split.
  - induction h as [|c h IH]; intros Hc; cbn [contains] in Hc.
    + rewrite orb_false_r in Hc.
      destruct (prefix_split _ _ Hc) as [b Hb]. exists "", b. exact Hb.
    + apply orb_prop in Hc as [Hp | Hr].
      * destruct (prefix_split _ _ Hp) as [b Hb]. exists "", b. exact Hb.
      * destruct (IH Hr) as (a & b & ->). exists (String c a), b. reflexivity.
  - intros (a & b & ->). induction a as [|c a IH].
    + change ("" ++ n ++ b) with (n ++ b).
      destruct (n ++ b) eqn:E; cbn [contains]; rewrite <- ?E, prefix_app;
        reflexivity.
    + change (String c a ++ n ++ b) with (String c (a ++ n ++ b)).
      cbn [contains]. rewrite IH. apply orb_true_r.
Qed.

(** ** The score and the category over the flags *)

Lemma score_of_flags_doubles (rain snow windy cold stormy : bool) :
  exists ql qh : Q,
    num_value (score_of_flags rain snow windy cold stormy false) = Some ql
    /\ num_value (score_of_flags rain snow windy cold stormy true) = Some qh
    /\ (qh == 2 * ql)%Q
    /\ (0 <= ql)%Q /\ (ql <= 23 # 2)%Q
    /\ exists n : Z, (ql == n # 2)%Q.
Proof.
  destruct rain, snow, windy, cold, stormy;
    (do 2 eexists; split; [vm_compute; reflexivity |];
     split; [vm_compute; reflexivity |];
     split; [vm_compute; reflexivity |];
     split; [unfold Qle; simpl; lia |];
     split; [unfold Qle; simpl; lia |]).
  all: match goal with
       | |- exists n : Z, (?a # ?b == _)%Q =>
           exists (2 * a / Z.pos b); vm_compute; reflexivity
       end.
Qed.

Lemma category_table (rain snow windy cold stormy : bool) :
  String.eqb (categorize (score_of_flags rain snow windy cold stormy true)).1 "Low"
  = negb (rain || snow || windy || cold || stormy)
  /\ String.eqb (categorize (score_of_flags rain snow windy cold stormy true)).1 "High"
     = snow || stormy || at_least_two rain windy cold
  /\ String.eqb (categorize (score_of_flags rain snow windy cold stormy false)).1 "Low"
     = negb snow && negb stormy && negb (at_least_two rain windy cold)
  /\ String.eqb (categorize (score_of_flags rain snow windy cold stormy false)).1 "High"
     = snow && stormy || (snow || stormy) && at_least_two rain windy cold.
Proof.
  destruct rain, snow, windy, cold, stormy; repeat split; vm_compute; reflexivity.
Qed.

Lemma category_monotone (r s w c st r' s' w' c' st' m : bool) :
  implb r r' = true -> implb s s' = true -> implb w w' = true ->
  implb c c' = true -> implb st st' = true ->
  (exists q q' : Q,
     num_value (score_of_flags r s w c st m) = Some q
     /\ num_value (score_of_flags r' s' w' c' st' m) = Some q'
     /\ (q <= q')%Q)
  /\ (level_rank (categorize (score_of_flags r s w c st m)).1
      <= level_rank (categorize (score_of_flags r' s' w' c' st' m)).1)%nat.
Proof.
  destruct r, r'; intros Hr; try discriminate Hr;
    destruct s, s'; intros Hs; try discriminate Hs;
    destruct w, w'; intros Hw; try discriminate Hw;
    destruct c, c'; intros Hc; try discriminate Hc;
    destruct st, st'; intros Hst; try discriminate Hst;
    destruct m;
    (split;
     [ do 2 eexists; split; [vm_compute; reflexivity |];
       split; [vm_compute; reflexivity | unfold Qle; simpl; lia]
     | vm_compute; lia ]).
Qed.

Lemma category_mountain_not_lower (rain snow windy cold stormy : bool) :
  (level_rank (categorize (score_of_flags rain snow windy cold stormy false)).1
   <= level_rank (categorize (score_of_flags rain snow windy cold stormy true)).1)%nat.
Proof.
  destruct rain, snow, windy, cold, stormy; vm_compute; lia.
Qed.

Lemma length_test_cons {A : Type} (x : A) (l : list A) :
  (0 <? Z.of_nat (List.length (x :: l))) = true.
Proof. apply Z.ltb_lt. cbn [List.length]. lia. Qed.

Lemma category_without_flags (m : bool) :
  (categorize (score_of_flags false false false false false m)).1 = "Low".
Proof. destruct m; vm_compute; reflexivity. Qed.

Section MoreProperties.

Variable lower : string -> string.
Variable fmt : pyval -> string.

(** ** The flags outside the typed domain *)

(** X1: when the main text has "rain" anywhere in it, the rain volume is never
    compared: the flags are the same whatever the volume holds, a number or
    not; likewise for "snow" and the snow volume. *)
Theorem precip_volume_not_compared (p : snapshot) (a b : string) (v : pyval) :
  (weather_main p = a ++ "rain" ++ b ->
     hazard_flags (with_rain_1h p v) = hazard_flags p
     /\ forall f : flags, hazard_flags p = Ok f -> has_rain f = true)
  /\ (weather_main p = a ++ "snow" ++ b ->
     hazard_flags (with_snow_1h p v) = hazard_flags p
     /\ forall f : flags, hazard_flags p = Ok f -> has_snow f = true).
Proof.
  split; intros Hm.
  - assert (Hc : contains "rain" (weather_main p) = true)
      by (apply contains_substring; eauto).
    unfold hazard_flags, with_rain_1h. cbn [weather_main weather_desc temp_c
      wind_speed rain_1h snow_1h]. rewrite Hc. split; [reflexivity |].
    intros f. cbn [mbind res_bind mret res_ret].
    destruct (if contains "snow" (weather_main p) then _ else _); [| discriminate].
    cbn [mbind res_bind].
    destruct (py_ge (wind_speed p) WIND_STRONG_THRESHOLD); [| discriminate].
    cbn [mbind res_bind].
    destruct (if negb (is_none (temp_c p)) then _ else _); [| discriminate].
    cbn. intros [= <-]. reflexivity.
  - assert (Hc : contains "snow" (weather_main p) = true)
      by (apply contains_substring; eauto).
    unfold hazard_flags, with_snow_1h. cbn [weather_main weather_desc temp_c
      wind_speed rain_1h snow_1h]. rewrite Hc. split; [reflexivity |].
    intros f.
    destruct (if contains "rain" (weather_main p) then _ else _); [| discriminate].
    cbn [mbind res_bind mret res_ret].
    destruct (py_ge (wind_speed p) WIND_STRONG_THRESHOLD); [| discriminate].
    cbn [mbind res_bind].
    destruct (if negb (is_none (temp_c p)) then _ else _); [| discriminate].
    cbn. intros [= <-]. reflexivity.
Qed.

Lemma hazard_flags_only_type_error (p : snapshot) (e : exn) :
  hazard_flags p = Raise e -> e = TypeError.
Proof.
  unfold hazard_flags, py_ge, py_le.
  destruct (contains "rain" (weather_main p)),
    (contains "snow" (weather_main p)),
    (as_num (rain_1h p)) as [rnw|], (as_num (snow_1h p)) as [snw|],
    (as_num (wind_speed p)) as [spd|];
    cbn [mbind res_bind mret res_ret];
    try destruct (num_ge rnw PRECIP_THRESHOLD_MM);
    cbn [mbind res_bind mret res_ret];
    destruct (is_none (temp_c p)), (as_num (temp_c p));
    cbn [mbind res_bind mret res_ret negb];
    unfold mret, res_ret; congruence.
Qed.

Lemma bind_never {A B : Type} (r : res A) (k : A -> res B) (e : exn) :
  r <> Raise e -> (forall a : A, k a <> Raise e) -> r ≫= k <> Raise e.
Proof.
  intros Hr Hk. destruct r as [a|e']; cbn; [apply Hk |].
  intros [= ->]. apply Hr. reflexivity.
Qed.

Lemma py_get_never_index (v : pyval) (k : string) (dflt : pyval) :
  py_get v k dflt <> Raise IndexError.
Proof. destruct v; discriminate. Qed.

Lemma parse_precip_never_index (w : pyval) (k : string) :
  parse_precip w k <> Raise IndexError.
Proof.
  unfold parse_precip, py_in, py_getitem, py_get.
  destruct w; cbn; try discriminate; repeat (case_match; cbn; try discriminate).
Qed.

Lemma parse_condition_never_index (w : pyval) :
  parse_condition lower w <> Raise IndexError.
Proof.
  unfold parse_condition, py_in, py_getitem, py_len, py_getitem0, py_get,
    py_lower.
  destruct w as [| | | s | l | d]; cbn; try discriminate.
  - destruct (contains "weather" s); cbn; discriminate.
  - destruct (existsb _ l); cbn; discriminate.
  - destruct (d !! "weather") as [v|]; cbn; [| discriminate].
    destruct v as [| | | s | l | d']; cbn; try discriminate.
    + destruct s; cbn; discriminate.
    + destruct l as [|x l]; cbn; [discriminate |].
      destruct x as [| | | | | c]; cbn; try discriminate.
      destruct (c !! "main") as [[]|], (c !! "description") as [[]|]; cbn;
        discriminate.
    + destruct (0 <? Z.of_nat (size d')); cbn; discriminate.
Qed.

(** X2: the flags raise exactly when a comparison that is evaluated meets a
    value that is neither a number nor a bool: the rain volume when the main
    text has no "rain", the snow volume when it has no "snow", the wind
    speed, or a temperature other than [None]; the exception is always
    TypeError. *)
Theorem hazard_flags_raises_iff (p : snapshot) :
  (forall e : exn, hazard_flags p = Raise e -> e = TypeError)
  /\ ((exists e : exn, hazard_flags p = Raise e)
      <-> (contains "rain" (weather_main p) = false /\ as_num (rain_1h p) = None)
          \/ (contains "snow" (weather_main p) = false /\ as_num (snow_1h p) = None)
          \/ as_num (wind_speed p) = None
          \/ (is_none (temp_c p) = false /\ as_num (temp_c p) = None)).
Proof.
  unfold hazard_flags, py_ge, py_le.
  destruct (contains "rain" (weather_main p)),
    (contains "snow" (weather_main p)),
    (as_num (rain_1h p)) as [rnw|], (as_num (snow_1h p)) as [snw|],
    (as_num (wind_speed p)) as [spd|];
    cbn [mbind res_bind mret res_ret];
    try destruct (num_ge rnw PRECIP_THRESHOLD_MM);
    cbn [mbind res_bind mret res_ret];
    destruct (temp_c p) as [| tb | tn | ts | tl | td];
    cbn [mbind res_bind mret res_ret is_none negb as_num];
    unfold mret, res_ret;
    (split;
     [ intros e He; congruence
     | split;
       [ intros [e He]; try discriminate; tauto
       | intros H; try (eexists; reflexivity);
         exfalso; intuition discriminate ] ]).
Qed.

(** ** Payloads outside the provider's shape *)

(** X3: a payload that is not a dict never yields an assessment: the call
    raises TypeError or AttributeError. *)
Theorem analyze_risk_non_dict_raises (w : pyval) (m : bool) :
  (forall d : gmap string pyval, w <> PDict d) ->
  analyze_risk lower fmt w m = Raise TypeError
  \/ analyze_risk lower fmt w m = Raise AttributeError.
Proof.
  intros Hw. unfold analyze_risk, parse_fields, parse_condition, py_in,
    py_getitem, py_get.
  destruct w as [| | | s | l | d]; cbn; auto.
  - destruct (contains "weather" s); cbn; auto.
  - destruct (existsb _ l); cbn; auto.
  - destruct (Hw d). reflexivity.
Qed.

(** X4: whatever the payload, the call never raises IndexError: the first
    weather entry is read only under the length test. *)
Theorem analyze_risk_never_index_error (w : pyval) (m : bool) :
  analyze_risk lower fmt w m <> Raise IndexError.
Proof.
  unfold analyze_risk. apply bind_never.
  - unfold parse_fields.
    apply bind_never; [apply parse_condition_never_index |].
    intros [mn dsc].
    apply bind_never; [apply py_get_never_index |]. intros main.
    apply bind_never; [apply py_get_never_index |]. intros tmp.
    apply bind_never; [apply py_get_never_index |]. intros wind.
    apply bind_never; [apply py_get_never_index |]. intros spd.
    apply bind_never; [apply parse_precip_never_index |]. intros rnw.
    apply bind_never; [apply parse_precip_never_index |]. intros snw.
    discriminate.
  - intros p. unfold assess. apply bind_never.
    + intros He. apply hazard_flags_only_type_error in He. discriminate.
    + intros f.
      destruct (evaluate_risk fmt p f m) as [rs sc].
      destruct (categorize sc) as [lv adv].
      destruct (lowland_adjust m lv rs) as [lv' rs'].
      discriminate.
Qed.

(** X5: only the five sections "weather", "main", "wind", "rain" and "snow"
    of the payload are read: two payloads that agree on them get the same
    outcome. *)
Theorem analyze_risk_reads_five_sections (d d' : gmap string pyval) (m : bool) :
  d !! "weather" = d' !! "weather" ->
  d !! "main" = d' !! "main" ->
  d !! "wind" = d' !! "wind" ->
  d !! "rain" = d' !! "rain" ->
  d !! "snow" = d' !! "snow" ->
  analyze_risk lower fmt (PDict d) m = analyze_risk lower fmt (PDict d') m.
Proof.
  intros Hw Hm Hv Hr Hs.
  unfold analyze_risk, parse_fields, parse_condition, parse_precip, py_in,
    py_getitem, py_get.
  rewrite Hw, Hm, Hv, Hr, Hs. reflexivity.
Qed.

(** X6: of the weather list only the first entry is read: the entries after
    it do not change the outcome. *)
Theorem analyze_risk_first_entry_only (d : gmap string pyval) (x : pyval)
    (l l' : list pyval) (m : bool) :
  analyze_risk lower fmt (PDict (<["weather" := PList (x :: l)]> d)) m
  = analyze_risk lower fmt (PDict (<["weather" := PList (x :: l')]> d)) m.
Proof.
  unfold analyze_risk, parse_fields, parse_condition, parse_precip, py_in,
    py_getitem, py_get, py_len, py_getitem0.
  rewrite !lookup_insert_eq.
  rewrite !lookup_insert_ne by discriminate.
  reflexivity.
Qed.

(** X7: the mountainous flag changes neither whether the call raises, nor
    the exception, nor the snapshot: the call raises an exception with the
    flag true exactly when it raises the same one with the flag false. *)
Theorem flag_does_not_change_failure (w : pyval) :
  (forall e : exn,
     analyze_risk lower fmt w true = Raise e
     <-> analyze_risk lower fmt w false = Raise e)
  /\ (forall a a' : assessment,
        analyze_risk lower fmt w true = Ok a ->
        analyze_risk lower fmt w false = Ok a' ->
        raw a = raw a').
Proof.
  split.
  - intros e. unfold analyze_risk, assess.
    destruct (parse_fields lower w) as [p|e']; cbn [mbind res_bind];
      [| reflexivity].
    destruct (hazard_flags p) as [f|e']; cbn [mbind res_bind]; [| reflexivity].
    destruct (evaluate_risk fmt p f true) as [rs sc].
    destruct (categorize sc) as [lv adv].
    destruct (lowland_adjust true lv rs) as [lv' rs'].
    destruct (evaluate_risk fmt p f false) as [rs2 sc2].
    destruct (categorize sc2) as [lv2 adv2].
    destruct (lowland_adjust false lv2 rs2) as [lv2' rs2'].
    split; discriminate.
  - intros a a' Ha Ha'.
    apply analyze_risk_raw in Ha, Ha'. congruence.
Qed.

(** ** The score and the level *)

(** X8: for every observation the score is a finite half-integer, on the
    mountains exactly twice the score off the mountains, between 0 and 11.5
    off the mountains (so at most 23 on them). *)
Theorem score_doubles_on_mountains (o : WeatherObservation) :
  exists (f : flags) (ql qh : Q),
    hazard_flags (observe o) = Ok f
    /\ num_value (risk_score fmt (observe o) f false) = Some ql
    /\ num_value (risk_score fmt (observe o) f true) = Some qh
    /\ (qh == 2 * ql)%Q
    /\ (0 <= ql)%Q /\ (ql <= 23 # 2)%Q
    /\ exists n : Z, (ql == n # 2)%Q.
Proof.
  pose proof (hazard_flags_observe o) as Hf.
  set (f := observed_flags o) in Hf.
  destruct (score_of_flags_doubles (has_rain f) (has_snow f) (is_windy f)
              (is_cold f) (is_stormy (observe o))) as (ql & qh & H).
  rewrite <- !(risk_score_flags fmt) in H.
  exists f, ql, qh. split; [exact Hf | exact H].
Qed.

(** X9: on the mountains the base level is "Low" exactly when no flag fires,
    and "High" exactly when snow or storm fires or at least two of rain, wind
    and cold do. *)
Theorem mountain_level_table (o : WeatherObservation) :
  exists f : flags,
    hazard_flags (observe o) = Ok f
    /\ ((categorize (risk_score fmt (observe o) f true)).1 = "Low"
        <-> has_rain f || has_snow f || is_windy f || is_cold f
            || is_stormy (observe o) = false)
    /\ ((categorize (risk_score fmt (observe o) f true)).1 = "High"
        <-> has_snow f || is_stormy (observe o)
            || at_least_two (has_rain f) (is_windy f) (is_cold f) = true).
Proof.
  pose proof (hazard_flags_observe o) as Hf.
  set (f := observed_flags o) in Hf.
  exists f. split; [exact Hf |].
  rewrite risk_score_flags.
  destruct (category_table (has_rain f) (has_snow f) (is_windy f) (is_cold f)
              (is_stormy (observe o))) as (HL & HH & _ & _).
  rewrite <- !String.eqb_eq, HL, HH, negb_true_iff. tauto.
Qed.

(** X10: off the mountains the base level is "Low" exactly when neither snow
    nor storm fires and at most one of rain, wind and cold does, and "High"
    exactly when snow and storm both fire, or one of them fires together with
    at least two of rain, wind and cold. *)
Theorem lowland_level_table (o : WeatherObservation) :
  exists f : flags,
    hazard_flags (observe o) = Ok f
    /\ ((categorize (risk_score fmt (observe o) f false)).1 = "Low"
        <-> negb (has_snow f) && negb (is_stormy (observe o))
            && negb (at_least_two (has_rain f) (is_windy f) (is_cold f)) = true)
    /\ ((categorize (risk_score fmt (observe o) f false)).1 = "High"
        <-> has_snow f && is_stormy (observe o)
            || (has_snow f || is_stormy (observe o))
               && at_least_two (has_rain f) (is_windy f) (is_cold f) = true).
Proof.
  pose proof (hazard_flags_observe o) as Hf.
  set (f := observed_flags o) in Hf.
  exists f. split; [exact Hf |].
  rewrite risk_score_flags.
  destruct (category_table (has_rain f) (has_snow f) (is_windy f) (is_cold f)
              (is_stormy (observe o))) as (_ & _ & HL & HH).
  rewrite <- !String.eqb_eq, HL, HH. tauto.
Qed.

(** X11: one more hazard never lowers the outcome: when every flag that fires
    for one observation also fires for another, with the same mountainous
    flag, the second has a score and a base level at least as high. *)
Theorem more_hazards_not_lower (o o' : WeatherObservation) (m : bool)
    (f f' : flags) :
  hazard_flags (observe o) = Ok f ->
  hazard_flags (observe o') = Ok f' ->
  implb (has_rain f) (has_rain f') = true ->
  implb (has_snow f) (has_snow f') = true ->
  implb (is_windy f) (is_windy f') = true ->
  implb (is_cold f) (is_cold f') = true ->
  implb (is_stormy (observe o)) (is_stormy (observe o')) = true ->
  (exists q q' : Q,
     num_value (risk_score fmt (observe o) f m) = Some q
     /\ num_value (risk_score fmt (observe o') f' m) = Some q'
     /\ (q <= q')%Q)
  /\ (level_rank (categorize (risk_score fmt (observe o) f m)).1
      <= level_rank (categorize (risk_score fmt (observe o') f' m)).1)%nat.
Proof.
  intros _ _ Hr Hs Hw Hc Hst.
  rewrite !risk_score_flags.
  apply category_monotone; assumption.
Qed.

(** X12: for every observation the base level on the mountains is at least
    the base level off the mountains. *)
Theorem mountains_not_milder (o : WeatherObservation) :
  exists f : flags,
    hazard_flags (observe o) = Ok f
    /\ (level_rank (categorize (risk_score fmt (observe o) f false)).1
        <= level_rank (categorize (risk_score fmt (observe o) f true)).1)%nat.
Proof.
  pose proof (hazard_flags_observe o) as Hf.
  set (f := observed_flags o) in Hf.
  exists f. split; [exact Hf |].
  rewrite !risk_score_flags. apply category_mountain_not_lower.
Qed.

(** X13: a level other than "Low" is always explained: some hazard flag
    fired and its reason is listed besides the lowland note; and there are
    never more than six reasons. *)
Theorem non_low_level_has_reason (o : WeatherObservation) (m : bool) :
  exists (f : flags) (a : assessment),
    hazard_flags (observe o) = Ok f
    /\ assess fmt (observe o) m = Ok a
    /\ (level a <> "Low" ->
        has_rain f || has_snow f || is_windy f || is_cold f
        || is_stormy (observe o) = true)
    /\ (level a <> "Low" ->
        ((if m then 1 else 2) <= List.length (reasons a))%nat)
    /\ (List.length (reasons a) <= 6)%nat.
Proof.
  pose proof (hazard_flags_observe o) as Hf.
  set (f := observed_flags o) in Hf.
  exists f; eexists.
  split; [exact Hf |].
  split; [apply assess_flags; exact Hf |].
  cbn [level reasons].
  rewrite lowland_adjust_level, lowland_adjust_reasons, reasons_flags,
    risk_score_flags.
  destruct (has_rain f), (has_snow f), (is_windy f), (is_cold f),
    (is_stormy (observe o));
    try (repeat split; intros; try reflexivity;
         destruct m, (String.eqb (weather_main (observe o)) "clear");
         cbn; lia).
  rewrite category_without_flags.
  replace (negb m && String.eqb "Low" "High") with false
    by (destruct m; reflexivity).
  repeat split; intros; try congruence.
  destruct m, (String.eqb (weather_main (observe o)) "clear"); cbn; lia.
Qed.

(** ** The elevation lookup and the classification *)

(** X14: the lookup returns a value other than [None] exactly when the
    response is a dict whose "results" is a list that starts with a dict
    holding that value under "elevation"; a failed request, a missing or
    empty list and every other shape give [None]. *)
Theorem fetch_elevation_known_iff (outcome : http_outcome) (v : pyval) :
  v <> PNone ->
  (fetch_elevation outcome = v
   <-> exists (d r : gmap string pyval) (l : list pyval),
         outcome = HttpJson (PDict d)
         /\ d !! "results" = Some (PList (PDict r :: l))
         /\ r !! "elevation" = Some v).
Proof.
  intros Hv. split.
  - destruct outcome as [|data]; [cbn; (intros E; exfalso; congruence) |].
    unfold fetch_elevation, first_elevation, py_in, py_getitem, py_len,
      py_getitem0, py_get, mret, res_ret.
    destruct data as [| | | s | l | d]; cbn; try (intros E; exfalso; congruence).
    + destruct (contains "results" s); cbn; (intros E; exfalso; congruence).
    + destruct (existsb _ l); cbn; (intros E; exfalso; congruence).
    + destruct (d !! "results") as [x|] eqn:Ed; cbn; [| (intros E; exfalso; congruence)].
      destruct x as [| | | s | l | d']; cbn; try (intros E; exfalso; congruence).
      * destruct s; cbn; destruct (0 <? _); (intros E; exfalso; congruence).
      * destruct l as [|x l];
          [change (0 <? Z.of_nat (List.length (@nil pyval))) with false; cbn;
           intros E; exfalso; congruence |].
        rewrite length_test_cons. cbn.
        destruct x as [| | | | | r]; cbn; try (intros E; exfalso; congruence).
        destruct (r !! "elevation") as [y|] eqn:Er; cbn; [| (intros E; exfalso; congruence)].
        intros <-. exists d, r, l. auto.
      * destruct (0 <? Z.of_nat (size d')); cbn; (intros E; exfalso; congruence).
  - intros (d & r & l & -> & Hd & Hr).
    unfold fetch_elevation, first_elevation, py_in, py_getitem, py_len,
      py_getitem0, py_get.
    rewrite Hd. cbn. rewrite Hr. reflexivity.
Qed.

(** X15: the classification by coordinates raises exactly when the elevation
    is looked up and the lookup returns something that is neither [None] nor
    a number nor a bool, and then it is TypeError: the override does not
    prevent it. *)
Theorem classify_coords_raises_iff (auto_elev force_mountain : bool)
    (fetched : pyval) :
  ((exists e : exn,
      classify_coords auto_elev force_mountain fetched = Raise e)
   <-> auto_elev = true /\ is_none fetched = false /\ as_num fetched = None)
  /\ (forall e : exn,
        classify_coords auto_elev force_mountain fetched = Raise e ->
        e = TypeError).
Proof.
  unfold classify_coords, py_ge.
  destruct auto_elev, force_mountain, fetched; cbn; unfold mret, res_ret;
    (split;
     [ split;
       [ intros [e He]; try discriminate; auto
       | intros (? & ? & ?); try discriminate; eexists; reflexivity ]
     | intros e He; congruence ]).
Qed.

(** X16: when the elevation is not known (name lookup, lookup switched off,
    failed or empty), the mountainous flag is the override alone; without the
    override a payload of the provider's shape is then assessed as lowland:
    the note comes first and the level is never the plain "High". *)
Theorem unknown_elevation_is_lowland (mode : loc_mode)
    (auto_elev force_mountain : bool) (w : pyval) (outcome : http_outcome) :
  well_formed w = true ->
  mode = CityName \/ auto_elev = false \/ fetch_elevation outcome = PNone ->
  exists a : assessment,
    check_risk lower fmt false mode auto_elev force_mountain w outcome
    = Ok (a, PNone, force_mountain)
    /\ analyze_risk lower fmt w force_mountain = Ok a
    /\ (force_mountain = false ->
        level a <> "High"
        /\ head (reasons a) = Some NOT_MOUNTAINOUS_NOTE).
Proof.
  intros Hw Hn.
  destruct (parse_fields_well_formed lower w Hw) as (o & Ep).
  assert (Hc : classify_location false mode auto_elev force_mountain
                 (fetch_elevation outcome) = Ok (PNone, force_mountain)).
  { destruct Hn as [-> | [-> | ->]];
      [| destruct mode | destruct mode, auto_elev];
      destruct force_mountain; reflexivity. }
  unfold check_risk. rewrite Hc. cbn [mbind res_bind].
  unfold analyze_risk. rewrite Ep. cbn [mbind res_bind].
  rewrite (assess_flags fmt _ _ _ (hazard_flags_observe o)).
  cbn [mbind res_bind]. eexists. split; [reflexivity |].
  split; [reflexivity |].
  intros ->. cbn [level reasons].
  rewrite lowland_adjust_level, lowland_adjust_reasons. cbn [negb andb].
  split; [| reflexivity].
  destruct (String.eqb_spec
              (categorize (risk_score fmt (observe o) (observed_flags o) false)).1
              "High") as [E | E]; [rewrite E; discriminate | exact E].
Qed.

(** ** The display *)

Lemma parse_fields_no_main (d : gmap string pyval) (p : snapshot) :
  d !! "main" = None ->
  parse_fields lower (PDict d) = Ok p ->
  temp_c p = PNone.
Proof.
  intros Hd. unfold parse_fields.
  destruct (parse_condition lower (PDict d)) as [[mn dsc]|e]; [| discriminate].
  cbn [mbind res_bind].
  change (py_get (PDict d) "main" (PDict ∅))
    with (Ok (default (PDict ∅) (d !! "main"))).
  rewrite Hd. cbn [default mbind res_bind].
  change (py_get (PDict ∅) "temp" PNone) with (Ok PNone).
  cbn [mbind res_bind].
  destruct (py_get (PDict d) "wind" (PDict ∅)) as [wind|e]; [| discriminate].
  cbn [mbind res_bind].
  destruct (py_get wind "speed" (PNum (NFloat 0.0))) as [spd|e]; [| discriminate].
  cbn [mbind res_bind].
  destruct (parse_precip (PDict d) "rain") as [rnw|e]; [| discriminate].
  cbn [mbind res_bind].
  destruct (parse_precip (PDict d) "snow") as [snw|e]; [| discriminate].
  cbn [mbind res_bind].
  intros [= <-]. reflexivity.
Qed.

(** X17: the fallbacks of the display are never used, because the snapshot
    always has every key: the page shows the four measured values as they
    were parsed, and for a payload without a "main" section the temperature
    line shows [None], not "N/A". *)
Theorem display_shows_parsed_values (d : gmap string pyval) (m shown : bool)
    (a : assessment) (elevation : pyval) :
  analyze_risk lower fmt (PDict d) m = Ok a ->
  Write ("Temperature: " ++ fmt (temp_c (raw a)) ++ " °C")
    ∈ render fmt a elevation shown
  /\ Write ("Wind speed: " ++ fmt (wind_speed (raw a)) ++ " m/s")
       ∈ render fmt a elevation shown
  /\ Write ("Rain (1h): " ++ fmt (rain_1h (raw a)) ++ " mm")
       ∈ render fmt a elevation shown
  /\ Write ("Snow (1h): " ++ fmt (snow_1h (raw a)) ++ " mm")
       ∈ render fmt a elevation shown
  /\ (d !! "main" = None ->
      Write ("Temperature: " ++ fmt PNone ++ " °C")
        ∈ render fmt a elevation shown).
Proof.
  intros Ha.
  assert (Ht : forall s : snapshot,
             dict_get (raw_dict s) "temp_c" (PStr "N/A") = temp_c s
             /\ dict_get (raw_dict s) "wind_speed" (PStr "N/A") = wind_speed s
             /\ dict_get (raw_dict s) "rain_1h" (PNum (NFloat 0.0)) = rain_1h s
             /\ dict_get (raw_dict s) "snow_1h" (PNum (NFloat 0.0)) = snow_1h s).
  { intros s. unfold dict_get, raw_dict.
    split; [reflexivity |]. split; [reflexivity |]. split; reflexivity. }
  destruct (Ht (raw a)) as (T1 & T2 & T3 & T4).
  assert (Hall :
    Write ("Temperature: " ++ fmt (temp_c (raw a)) ++ " °C")
      ∈ render fmt a elevation shown
    /\ Write ("Wind speed: " ++ fmt (wind_speed (raw a)) ++ " m/s")
         ∈ render fmt a elevation shown
    /\ Write ("Rain (1h): " ++ fmt (rain_1h (raw a)) ++ " mm")
         ∈ render fmt a elevation shown
    /\ Write ("Snow (1h): " ++ fmt (snow_1h (raw a)) ++ " mm")
         ∈ render fmt a elevation shown).
  { unfold render. cbv zeta. rewrite T1, T2, T3, T4.
    repeat split; rewrite !elem_of_app;
      do 2 right; right; right; left; rewrite !elem_of_cons; auto 10. }
  destruct Hall as (H1 & H2 & H3 & H4).
  repeat split; try assumption.
  intros Hd.
  rewrite <- (parse_fields_no_main d (raw a) Hd (analyze_risk_raw lower fmt _ _ _ Ha)).
  exact H1.
Qed.

End MoreProperties.

(** ** Concrete runs of the further properties *)

(** Freezing rain in words: the volume, a string here, is not looked at. *)
Lemma freezing_rain_volume_not_compared :
  weather_main freezing_rain_locals = "freezing " ++ "rain" ++ ""
  /\ hazard_flags (with_rain_1h freezing_rain_locals (PNum (NFloat 0.0)))
     = hazard_flags freezing_rain_locals
  /\ exists f : flags,
       hazard_flags freezing_rain_locals = Ok f /\ has_rain f = true.
Proof.
  destruct (precip_volume_not_compared freezing_rain_locals "freezing " ""
              (PNum (NFloat 0.0))) as [Hr _].
  destruct (Hr eq_refl) as [Heq Hf].
  split; [reflexivity |]. split; [exact Heq |].
  eexists. split; [vm_compute; reflexivity |].
  apply Hf. vm_compute; reflexivity.
Defined.

(** A payload that is an empty list. *)
Lemma empty_list_payload_raises :
  (forall d : gmap string pyval, PList [] <> PDict d)
  /\ (analyze_risk ascii_lower fmt_plain (PList []) true = Raise TypeError
      \/ analyze_risk ascii_lower fmt_plain (PList []) true
         = Raise AttributeError).
Proof.
  split; [discriminate |].
  apply (analyze_risk_non_dict_raises ascii_lower fmt_plain (PList []) true).
  discriminate.
Defined.

(** The demo payload with a name next to the five sections. *)
Lemma named_demo_same_outcome :
  analyze_risk ascii_lower fmt_plain (PDict demo_fields) true
  = analyze_risk ascii_lower fmt_plain
      (PDict (<["name" := PStr "Skardu"]> demo_fields)) true.
Proof.
  apply (analyze_risk_reads_five_sections ascii_lower fmt_plain demo_fields
           (<["name" := PStr "Skardu"]> demo_fields) true);
    vm_compute; reflexivity.
Defined.

(** From the demo observation to the rainy one the rain flag is added. *)
Lemma rainy_not_lower_than_demo :
  (exists q q' : Q,
     num_value (risk_score fmt_plain (observe demo_observation)
                  (observed_flags demo_observation) true) = Some q
     /\ num_value (risk_score fmt_plain (observe rainy_observation)
                     (observed_flags rainy_observation) true) = Some q'
     /\ (q <= q')%Q)
  /\ (level_rank (categorize (risk_score fmt_plain (observe demo_observation)
                                (observed_flags demo_observation) true)).1
      <= level_rank (categorize (risk_score fmt_plain (observe rainy_observation)
                                   (observed_flags rainy_observation) true)).1)%nat.
Proof.
  apply (more_hazards_not_lower fmt_plain demo_observation rainy_observation
           true (observed_flags demo_observation)
           (observed_flags rainy_observation));
    vm_compute; reflexivity.
Defined.

(** A response with one result at 2228 m. *)
Lemma elevation_response_is_read :
  PNum (NInt 2228) <> PNone
  /\ fetch_elevation (HttpJson elevation_response) = PNum (NInt 2228).
Proof.
  split; [discriminate |].
  apply (fetch_elevation_known_iff (HttpJson elevation_response)
           (PNum (NInt 2228))); [discriminate |].
  do 3 eexists. split; [reflexivity |].
  split; vm_compute; reflexivity.
Defined.

(** A thunderstorm looked up by city name, without the override. *)
Lemma storm_by_city_name_is_lowland :
  well_formed storm_weather = true
  /\ (CityName = CityName \/ true = false \/ fetch_elevation HttpFailed = PNone)
  /\ exists a : assessment,
       check_risk ascii_lower fmt_plain false CityName true false storm_weather
         HttpFailed = Ok (a, PNone, false)
       /\ level a <> "High"
       /\ head (reasons a) = Some NOT_MOUNTAINOUS_NOTE.
Proof.
  split; [vm_compute; reflexivity |]. split; [left; reflexivity |].
  destruct (unknown_elevation_is_lowland ascii_lower fmt_plain CityName true
              false storm_weather HttpFailed) as (a & Hc & _ & Hl).
  - vm_compute; reflexivity.
  - left; reflexivity.
  - exists a. split; [exact Hc |]. apply Hl. reflexivity.
Defined.

(** The thunderstorm payload has no "main" section: the page shows the
    temperature as [None]. *)
Lemma storm_page_shows_none :
  storm_weather = PDict storm_fields
  /\ storm_fields !! "main" = None
  /\ exists a : assessment,
       analyze_risk ascii_lower fmt_plain (PDict storm_fields) true = Ok a
       /\ Write "Temperature: None °C" ∈ render fmt_plain a PNone true.
Proof.
  split; [reflexivity |]. split; [reflexivity |].
  destruct (analyze_risk ascii_lower fmt_plain (PDict storm_fields) true)
    as [a|e] eqn:Ha; [| vm_compute in Ha; discriminate Ha].
  exists a. split; [reflexivity |].
  destruct (display_shows_parsed_values ascii_lower fmt_plain storm_fields
              true true a PNone Ha) as (_ & _ & _ & _ & Hn).
  apply Hn. reflexivity.
Defined.
